(** * httomolibgpu: sinogram stitching and reconstruction entry points

    A shallow embedding of [httomolibgpu/misc/morph.py] (the function
    [sino_360_to_180]) and of the parameter translation performed by
    [httomolibgpu/recon/algorithm.py] ([FBP], [SIRT], [CGLS]).

    Arrays live in a store of reference cells, as Python objects do; the
    array library (slicing, broadcasting, [linspace], [empty]) is modelled
    next to the code that uses it. *)

From Stdlib Require Import QArith Qround Qcanon.
From Stdlib Require PrimFloat Uint63.
From stdpp Require Import base gmap list strings numbers.
Close Scope Qc_scope.
Close Scope Q_scope.

(** ** Python values: exceptions and results *)

Inductive exn :=
  | ValueError (msg : string)
  | IndexError (msg : string)
  | DanglingRef.

Inductive result (A : Type) :=
  | Ok (a : A)
  | Raise (e : exn).
Arguments Ok {A} a.
Arguments Raise {A} e.

Definition is_ok {A} (r : result A) : bool :=
  match r with Ok _ => true | Raise _ => false end.

(** ** Slices with Python's index normalisation (step 1) *)

Record slice := Slice { start : option Z; stop : option Z }.

Definition all : slice := Slice None None.
Definition upto (b : Z) : slice := Slice None (Some b).
Definition from (a : Z) : slice := Slice (Some a) None.
Definition between (a b : Z) : slice := Slice (Some a) (Some b).

(** A negative bound counts from the end; every bound is clamped to
    [0, len]. *)
Definition clamp_index (len : nat) (i : Z) : nat :=
  if (i <? 0)%Z then Z.to_nat (i + Z.of_nat len) else Nat.min (Z.to_nat i) len.

Definition slice_lo (len : nat) (s : slice) : nat :=
  from_option (clamp_index len) 0 (start s).
Definition slice_hi (len : nat) (s : slice) : nat :=
  from_option (clamp_index len) len (stop s).
Definition slice_len (len : nat) (s : slice) : nat :=
  slice_hi len s - slice_lo len s.

Definition in_range (lo len i : nat) : bool := (lo <=? i) && (i <? lo + len).

(** ** Scalars: [np.round] followed by [int], and [linspace] *)

(** [int(np.round(x))]: round to nearest, ties to even. *)
Definition np_round (q : Q) : Z :=
  let f := Qfloor q in
  match Qcompare (q - inject_Z f) (1 # 2) with
  | Lt => f
  | Gt => (f + 1)%Z
  | Eq => if Z.even f then f else (f + 1)%Z
  end.

(** [linspace(start, stop, num)] of the array library, with exact
    weights: no sample for [num = 0], the single sample [start] for
    [num = 1] (no step is computed there), otherwise [num] evenly spaced
    samples whose last one is [stop] itself. *)
Definition linspace (lo hi : Q) (num : nat) : list Q :=
  match num with
  | 0 => []
  | 1 => [lo]
  | S div =>
      let step := ((hi - lo) / inject_Z (Z.of_nat div))%Q in
      map (fun i => (lo + inject_Z (Z.of_nat i) * step)%Q) (seq 0 div) ++ [hi]
  end.

(** ** The array runtime *)

(** Element values, the float64 scalars of intermediate results, element
    types, and what the allocator leaves in fresh memory. *)
Class Backend := {
  elem : Type;
  scalar : Type;
  dtype : Type;
  of_weight : Q -> scalar;
  promote : elem -> scalar;
  smul : scalar -> scalar -> scalar;
  sadd : scalar -> scalar -> scalar;
  cast : dtype -> scalar -> elem;
  uninit : list nat -> elem
}.

(** Three-dimensional values: views of stored arrays and temporaries. *)
Record arr3 (A : Type) := Arr3 {
  dim0 : nat; dim1 : nat; dim2 : nat;
  at3 : nat -> nat -> nat -> A
}.
Arguments Arr3 {A} dim0 dim1 dim2 at3.
Arguments dim0 {A} a.
Arguments dim1 {A} a.
Arguments dim2 {A} a.
Arguments at3 {A} a i j k.

Definition dims {A} (v : arr3 A) : nat * nat * nat := (dim0 v, dim1 v, dim2 v).

(** Same shape and same elements inside the shape. *)
Definition arr3_eq {A} (u v : arr3 A) : Prop :=
  dims u = dims v /\
  forall i j k, i < dim0 u -> j < dim1 u -> k < dim2 u ->
    at3 u i j k = at3 v i j k.

#[export] Instance arr3_equiv {A} : Equiv (arr3 A) := arr3_eq.

Definition to_lists {A} (v : arr3 A) : list (list (list A)) :=
  map (fun i => map (fun j => map (fun k => at3 v i j k) (seq 0 (dim2 v)))
                    (seq 0 (dim1 v)))
      (seq 0 (dim0 v)).

Definition map3 {A B} (f : A -> B) (v : arr3 A) : arr3 B :=
  Arr3 (dim0 v) (dim1 v) (dim2 v) (fun i j k => f (at3 v i j k)).

(** [v[s0, s1, s2]] *)
Definition slice3 {A} (v : arr3 A) (s0 s1 s2 : slice) : arr3 A :=
  Arr3 (slice_len (dim0 v) s0) (slice_len (dim1 v) s1) (slice_len (dim2 v) s2)
       (fun i j k => at3 v (slice_lo (dim0 v) s0 + i)
                           (slice_lo (dim1 v) s1 + j)
                           (slice_lo (dim2 v) s2 + k)).

(** [v[:, :, ::-1]] *)
Definition flip2 {A} (v : arr3 A) : arr3 A :=
  Arr3 (dim0 v) (dim1 v) (dim2 v) (fun i j k => at3 v i j (dim2 v - 1 - k)).

(** Broadcasting of one axis: equal lengths, or one of them is 1. *)
Definition bdim (a b : nat) : option nat :=
  if a =? b then Some a
  else if a =? 1 then Some b
  else if b =? 1 then Some a
  else None.

Definition bidx (len i : nat) : nat := if len =? 1 then 0 else i.

Definition broadcast_error {A} : result A :=
  Raise (ValueError "operands could not be broadcast together").

Section Runtime.
Context `{Backend}.

(** An array object: shape, element type and contents by index. *)
Record ndarray := NdArray {
  shape : list nat;
  dtype_of : dtype;
  item : list nat -> elem
}.

Definition ndim (a : ndarray) : nat := length (shape a).

Definition as3 (a : ndarray) : arr3 elem :=
  Arr3 (nth 0 (shape a) 0) (nth 1 (shape a) 0) (nth 2 (shape a) 0)
       (fun i j k => item a [i; j; k]).

(** [weights * v] with [weights] one-dimensional: float64 result. *)
Definition wmul (weights : list Q) (v : arr3 elem) : result (arr3 scalar) :=
  match bdim (length weights) (dim2 v) with
  | Some d =>
      Ok (Arr3 (dim0 v) (dim1 v) d (fun i j k =>
            smul (of_weight (nth (bidx (length weights) k) weights 0%Q))
                 (promote (at3 v i j (bidx (dim2 v) k)))))
  | None => broadcast_error
  end.

(** [u + v] *)
Definition add3 (u v : arr3 scalar) : result (arr3 scalar) :=
  match bdim (dim0 u) (dim0 v), bdim (dim1 u) (dim1 v), bdim (dim2 u) (dim2 v) with
  | Some d0, Some d1, Some d2 =>
      Ok (Arr3 d0 d1 d2 (fun i j k =>
            sadd (at3 u (bidx (dim0 u) i) (bidx (dim1 u) j) (bidx (dim2 u) k))
                 (at3 v (bidx (dim0 v) i) (bidx (dim1 v) j) (bidx (dim2 v) k))))
  | _, _, _ => broadcast_error
  end.

(** A value can be stored into a region when each of its axes has the
    region's length or length 1. *)
Definition fits (vd td : nat) : bool := (vd =? td) || (vd =? 1).

(** The array [a] after [a[s0, s1, s2] = v], each stored element going
    through [conv]. *)
Definition assign3 {A} (a : ndarray) (s0 s1 s2 : slice)
    (conv : A -> elem) (v : arr3 A) : ndarray :=
  let d := as3 a in
  NdArray (shape a) (dtype_of a) (fun idx =>
    match idx with
    | [i; j; k] =>
        if in_range (slice_lo (dim0 d) s0) (slice_len (dim0 d) s0) i
           && in_range (slice_lo (dim1 d) s1) (slice_len (dim1 d) s1) j
           && in_range (slice_lo (dim2 d) s2) (slice_len (dim2 d) s2) k
        then conv (at3 v (bidx (dim0 v) (i - slice_lo (dim0 d) s0))
                         (bidx (dim1 v) (j - slice_lo (dim1 d) s1))
                         (bidx (dim2 v) (k - slice_lo (dim2 d) s2)))
        else item a idx
    | _ => item a idx
    end).

(** *** The store and the monad of Python statements *)

Definition loc := nat.

Definition M (A : Type) : Type :=
  gmap nat ndarray -> gmap nat ndarray * result A.

Definition ret {A} (a : A) : M A := fun h => (h, Ok a).
Definition raise {A} (e : exn) : M A := fun h => (h, Raise e).
Definition bind {A B} (m : M A) (k : A -> M B) : M B :=
  fun h => match m h with
           | (h', Ok a) => k a h'
           | (h', Raise e) => (h', Raise e)
           end.
Definition lift {A} (r : result A) : M A := fun h => (h, r).

Definition deref (l : loc) : M ndarray :=
  fun h => match h !! l with
           | Some a => (h, Ok a)
           | None => (h, Raise DanglingRef)
           end.

Definition store (l : loc) (a : ndarray) : M unit :=
  fun h => (<[l := a]> h, Ok tt).

(** [empty(shape, dtype)]: a new object with arbitrary contents. *)
Definition cp_empty (shp : list Z) (dt : dtype) : M loc :=
  fun h =>
    if forallb (Z.leb 0) shp then
      let l := fresh (dom h) in
      (<[l := NdArray (map Z.to_nat shp) dt uninit]> h, Ok l)
    else (h, Raise (ValueError "negative dimensions are not allowed")).

(** [dst[s0, s1, s2] = v] *)
Definition setitem3 {A} (dst : loc) (s0 s1 s2 : slice)
    (conv : A -> elem) (v : arr3 A) : M unit :=
  bind (deref dst) (fun a =>
    match shape a with
    | [d0; d1; d2] =>
        if fits (dim0 v) (slice_len d0 s0)
           && fits (dim1 v) (slice_len d1 s1)
           && fits (dim2 v) (slice_len d2 s2)
        then store dst (assign3 a s0 s1 s2 conv v)
        else raise (ValueError "could not broadcast input array")
    | _ => raise (IndexError "too many indices for array")
    end).
End Runtime.

(** The store: array objects by reference. *)
Abbreviation heap := (gmap nat ndarray).

Notation "x <- m ;; k" := (bind m (fun x => k))
  (at level 100, m at next level, right associativity,
   format "'[v' x  <-  m  ;;  '/' k ']'").
Notation "m ;;; k" := (bind m (fun _ => k))
  (at level 100, right associativity, format "'[v' m  ;;;  '/' k ']'").

(** ** [httomolibgpu/misc/morph.py] *)

Section Morph.
Context `{Backend}.

(** The branch [rotation == "left"] (lines 89-95): [d] is [data],
    [dt] its element type. *)
Definition fill_left (out : loc) (d : arr3 elem) (dt : dtype)
    (n dz overlap : Z) : M unit :=
  let weights := linspace 0 1 (Z.to_nat overlap) in
  setitem3 out all all (from (- dz + overlap)) id
    (slice3 d (upto n) all (from overlap)) ;;;
  setitem3 out all all (upto (dz - overlap)) id
    (flip2 (slice3 d (between n (2 * n)) all (from overlap))) ;;;
  w1 <- lift (wmul weights (slice3 d (upto n) all (upto overlap))) ;;
  w2 <- lift (wmul weights
                (slice3 d (between n (2 * n)) all (upto overlap))) ;;
  blend <- lift (add3 w1 (flip2 w2)) ;;
  setitem3 out all all (between (dz - overlap) dz) (cast dt) blend.

(** The branch [rotation == "right"] (lines 97-103). *)
Definition fill_right (out : loc) (d : arr3 elem) (dt : dtype)
    (n dz overlap : Z) : M unit :=
  let weights := linspace 1 0 (Z.to_nat overlap) in
  setitem3 out all all (upto (dz - overlap)) id
    (slice3 d (upto n) all (upto (- overlap))) ;;;
  setitem3 out all all (from (- dz + overlap)) id
    (flip2 (slice3 d (between n (2 * n)) all (upto (- overlap)))) ;;;
  w1 <- lift (wmul weights (slice3 d (upto n) all (from (- overlap)))) ;;
  w2 <- lift (wmul weights
                (slice3 d (between n (2 * n)) all (from (- overlap)))) ;;
  blend <- lift (add3 w1 (flip2 w2)) ;;
  setitem3 out all all (between (dz - overlap) dz) (cast dt) blend.

Definition sino_360_to_180 (data : loc) (overlap : Q) (rotation : string)
    : M loc :=
  a <- deref data ;;
  if negb (ndim a =? 3) then raise (ValueError "only 3D data is supported")
  else
    let d := as3 a in
    let dx := Z.of_nat (dim0 d) in
    let dy := Z.of_nat (dim1 d) in
    let dz := Z.of_nat (dim2 d) in
    let overlap := np_round overlap in
    if (overlap >=? dz)%Z then
      raise (ValueError "overlap must be less than data.shape[2]")
    else if (overlap <? 0)%Z then
      raise (ValueError "only positive overlaps are allowed.")
    else
      let n := (dx / 2)%Z in
      out <- cp_empty [n; dy; (2 * dz - overlap)%Z] (dtype_of a) ;;
      (if String.eqb rotation "left" then
         fill_left out d (dtype_of a) n dz overlap
       else if String.eqb rotation "right" then
         fill_right out d (dtype_of a) n dz overlap
       else
         raise (ValueError
                  "rotation parameter must be either 'left' or 'right'")) ;;;
      ret out.

(** *** Closed forms used to describe the output

    The element written at [out[i, j, k]] by each branch, for [n] half
    projections, [C] input columns and [ov] overlapping columns. *)
Definition left_cell (a : ndarray) (dt : dtype) (n C ov i j k : nat) : elem :=
  let w := linspace 0 1 ov in
  if k <? C - ov then item a [n + i; j; C - 1 - k]
  else if k <? C then
    let c := k - (C - ov) in
    cast dt (sadd (smul (of_weight (nth c w 0%Q)) (promote (item a [i; j; c])))
                  (smul (of_weight (nth (ov - 1 - c) w 0%Q))
                        (promote (item a [n + i; j; ov - 1 - c]))))
  else item a [i; j; ov + (k - C)].

Definition right_cell (a : ndarray) (dt : dtype) (n C ov i j k : nat) : elem :=
  let w := linspace 1 0 ov in
  if k <? C - ov then item a [i; j; k]
  else if k <? C then
    let c := k - (C - ov) in
    cast dt (sadd (smul (of_weight (nth c w 0%Q))
                        (promote (item a [i; j; C - ov + c])))
                  (smul (of_weight (nth (ov - 1 - c) w 0%Q))
                        (promote (item a [n + i; j; C - ov + (ov - 1 - c)]))))
  else item a [n + i; j; C - ov - 1 - (k - C)].

(** The overlap is refused by the range checks of lines 79-82. *)
Definition range_error (r : result loc) : Prop :=
  r = Raise (ValueError "overlap must be less than data.shape[2]") \/
  r = Raise (ValueError "only positive overlaps are allowed.").

(** All the ways a call can end, with the store it leaves behind. *)
Inductive sino_outcome (h : heap) (data : loc) (q : Q) (rot : string)
    : heap * result loc -> Prop :=
  | out_dangling :
      h !! data = None ->
      sino_outcome h data q rot (h, Raise DanglingRef)
  | out_not_3d a :
      h !! data = Some a -> ndim a <> 3 ->
      sino_outcome h data q rot
        (h, Raise (ValueError "only 3D data is supported"))
  | out_too_large a P R C :
      h !! data = Some a -> shape a = [P; R; C] ->
      (Z.of_nat C <= np_round q)%Z ->
      sino_outcome h data q rot
        (h, Raise (ValueError "overlap must be less than data.shape[2]"))
  | out_negative a P R C :
      h !! data = Some a -> shape a = [P; R; C] ->
      (np_round q < 0)%Z ->
      sino_outcome h data q rot
        (h, Raise (ValueError "only positive overlaps are allowed."))
  | out_left a P R C ov out :
      h !! data = Some a -> shape a = [P; R; C] ->
      np_round q = Z.of_nat ov -> ov < C -> rot = "left"%string ->
      shape out = [P / 2; R; 2 * C - ov] ->
      dtype_of out = dtype_of a ->
      (forall i j k, i < P / 2 -> j < R -> k < 2 * C - ov ->
         item out [i; j; k] = left_cell a (dtype_of a) (P / 2) C ov i j k) ->
      sino_outcome h data q rot
        (<[fresh (dom h) := out]> h, Ok (fresh (dom h)))
  | out_right a P R C ov out :
      h !! data = Some a -> shape a = [P; R; C] ->
      np_round q = Z.of_nat ov -> 0 < ov -> ov < C -> rot = "right"%string ->
      shape out = [P / 2; R; 2 * C - ov] ->
      dtype_of out = dtype_of a ->
      (forall i j k, i < P / 2 -> j < R -> k < 2 * C - ov ->
         item out [i; j; k] = right_cell a (dtype_of a) (P / 2) C ov i j k) ->
      sino_outcome h data q rot
        (<[fresh (dom h) := out]> h, Ok (fresh (dom h)))
  | out_right_no_overlap a P R C :
      h !! data = Some a -> shape a = [P; R; C] ->
      np_round q = 0%Z -> 0 < C -> rot = "right"%string ->
      sino_outcome h data q rot
        (<[fresh (dom h) := NdArray [P / 2; R; 2 * C - 0] (dtype_of a) uninit]> h,
         Raise (ValueError "could not broadcast input array"))
  | out_bad_rotation a P R C ov :
      h !! data = Some a -> shape a = [P; R; C] ->
      np_round q = Z.of_nat ov -> ov < C ->
      rot <> "left"%string -> rot <> "right"%string ->
      sino_outcome h data q rot
        (<[fresh (dom h) := NdArray [P / 2; R; 2 * C - ov] (dtype_of a) uninit]> h,
         Raise (ValueError
                  "rotation parameter must be either 'left' or 'right'")).

(** Two runs end the same way: the same exception, or the same reference
    to arrays of one shape, element type and contents. *)
Definition same_outcome (r1 r2 : heap * result loc) : Prop :=
  match snd r1, snd r2 with
  | Ok o1, Ok o2 =>
      o1 = o2 /\
      exists out1 out2,
        fst r1 !! o1 = Some out1 /\ fst r2 !! o2 = Some out2 /\
        shape out1 = shape out2 /\ dtype_of out1 = dtype_of out2 /\
        as3 out1 ≡ as3 out2
  | Raise e1, Raise e2 => e1 = e2
  | _, _ => False
  end.
End Morph.

(** ** [httomolibgpu/recon/algorithm.py] *)

(** The keyword arguments given to the toolkit's [RecToolsDIRCuPy] and
    [RecToolsIRCuPy] constructors. *)
Record geometry := Geometry {
  DetectorsDimH : Z;
  DetectorsDimV : Z;
  CenterRotOffset : Q;
  AnglesVec : list Q;
  ObjSize : Z;
  device_projector : Z
}.

(** The [_algorithm_] dictionary of the iterative methods. *)
Record algorithm := Algorithm {
  iterations : option Z;
  nonnegativity : option bool
}.

Section Recon.
Context `{Backend}.

(** The external reconstruction toolkit: a geometry object is built
    from the keyword arguments and one of its methods is called on the
    projection data. Its mathematics is not part of this repository. *)
Class Toolkit := {
  volume : Type;
  RecToolsDIRCuPy_FBP3D : geometry -> ndarray -> volume;
  RecToolsIRCuPy_SIRT : geometry -> ndarray -> algorithm -> volume;
  RecToolsIRCuPy_CGLS : geometry -> ndarray -> algorithm -> volume
}.
Context `{Toolkit}.

(** [a.shape[i]] *)
Definition shape_at (a : ndarray) (i : nat) : result Z :=
  match shape a !! i with
  | Some d => Ok (Z.of_nat d)
  | None => Raise (IndexError "tuple index out of range")
  end.

(** Lines 101-112, 187-198 and 273-284: the defaults and the geometry. *)
Definition rec_tools (a : ndarray) (angles : list Q) (center : option Q)
    (objsize : option Z) (gpu_id : Z) : M geometry :=
  center <- match center with
            | None => s2 <- lift (shape_at a 2) ;; ret (inject_Z (s2 / 2))
            | Some c => ret c
            end ;;
  objsize <- match objsize with
             | None => lift (shape_at a 2)
             | Some s => ret s
             end ;;
  dimH <- lift (shape_at a 2) ;;
  dimV <- lift (shape_at a 1) ;;
  s2 <- lift (shape_at a 2) ;;
  ret {| DetectorsDimH := dimH;
         DetectorsDimV := dimV;
         CenterRotOffset := (inject_Z s2 / 2 - center - (1 # 2))%Q;
         AnglesVec := map Qopp angles;
         ObjSize := objsize;
         device_projector := gpu_id |}.

Definition FBP (data : loc) (angles : list Q) (center : option Q)
    (objsize : option Z) (gpu_id : Z) : M volume :=
  a <- deref data ;;
  RecToolsCP <- rec_tools a angles center objsize gpu_id ;;
  ret (RecToolsDIRCuPy_FBP3D RecToolsCP a).

Definition SIRT (data : loc) (angles : list Q) (center : option Q)
    (objsize : option Z) (iters : option Z) (nonneg : option bool)
    (gpu_id : Z) : M volume :=
  a <- deref data ;;
  RecToolsCP <- rec_tools a angles center objsize gpu_id ;;
  let _algorithm_ := {| iterations := iters; nonnegativity := nonneg |} in
  ret (RecToolsIRCuPy_SIRT RecToolsCP a _algorithm_).

Definition CGLS (data : loc) (angles : list Q) (center : option Q)
    (objsize : option Z) (iters : option Z) (nonneg : option bool)
    (gpu_id : Z) : M volume :=
  a <- deref data ;;
  RecToolsCP <- rec_tools a angles center objsize gpu_id ;;
  let _algorithm_ := {| iterations := iters; nonnegativity := nonneg |} in
  ret (RecToolsIRCuPy_CGLS RecToolsCP a _algorithm_).
End Recon.

(** ** A concrete runtime: exact rational arithmetic *)

Inductive np_dtype := uint16 | float32 | float64.

(** Elements and scalars are rationals in lowest terms; fresh memory
    holds -1 everywhere. *)
Definition exact_backend : Backend := {|
  elem := Qc;
  scalar := Qc;
  dtype := np_dtype;
  of_weight := Q2Qc;
  promote := fun x => x;
  smul := Qcmult;
  sadd := Qcplus;
  cast := fun _ x => x;
  uninit := fun _ => Q2Qc (-1)
|}.

(** [arange(d0 * d1 * d2).reshape(d0, d1, d2)] *)
Definition arange3 (dt : np_dtype) (d0 d1 d2 : nat) : @ndarray exact_backend :=
  @NdArray exact_backend [d0; d1; d2] dt (fun idx =>
    match idx with
    | [i; j; k] => Q2Qc (inject_Z (Z.of_nat ((i * d1 + j) * d2 + k)))
    | _ => Q2Qc 0
    end).

(** [a] with every element of its last row replaced by [v]. *)
Definition with_last_row (v : Qc) (a : @ndarray exact_backend)
    : @ndarray exact_backend :=
  @NdArray exact_backend (@shape exact_backend a) (@dtype_of exact_backend a)
    (fun idx =>
       match idx with
       | [i; j; k] =>
           if i =? nth 0 (@shape exact_backend a) 0 - 1 then v
           else @item exact_backend a idx
       | _ => @item exact_backend a idx
       end).

(** Shape and contents of the array a run returned, if it returned one. *)
Definition output_of (r : gmap nat (@ndarray exact_backend) * result nat)
    : option (list nat * list (list (list Q))) :=
  match r with
  | (h, Ok o) =>
      match h !! o with
      | Some a => Some (@shape exact_backend a,
                        map (map (map this)) (to_lists (@as3 exact_backend a)))
      | None => None
      end
  | (_, Raise _) => None
  end.


(** The function on the exact runtime, and a store holding one array at
    reference 0. *)
Definition stitch : nat -> Q -> string ->
    gmap nat (@ndarray exact_backend) ->
    gmap nat (@ndarray exact_backend) * result nat :=
  @sino_360_to_180 exact_backend.

Definition store_of (a : @ndarray exact_backend)
    : gmap nat (@ndarray exact_backend) := {[ 0 := a ]}.

(** A toolkit that records which method was called and with what. *)
Inductive toolkit_call :=
  | CallFBP3D (g : geometry)
  | CallSIRT (g : geometry) (alg : algorithm)
  | CallCGLS (g : geometry) (alg : algorithm).

Definition recording_toolkit : @Toolkit exact_backend := {|
  volume := toolkit_call;
  RecToolsDIRCuPy_FBP3D := fun g _ => CallFBP3D g;
  RecToolsIRCuPy_SIRT := fun g _ alg => CallSIRT g alg;
  RecToolsIRCuPy_CGLS := fun g _ alg => CallCGLS g alg
|}.

(** ** A second concrete runtime: IEEE binary64 *)





(** ** Mirrored input *)

Section Mirrored.
Context `{Backend}.

(** [a[:, :, ::-1]] as an array object of its own. *)
Definition mirror (a : ndarray) : ndarray :=
  NdArray (shape a) (dtype_of a) (fun idx =>
    match idx with
    | [i; j; k] => item a [i; j; nth 2 (shape a) 0 - 1 - k]
    | _ => item a idx
    end).
End Mirrored.

(** ** The memory estimators of both modules

    Each estimator receives the two dimensions of one slice, the element
    type, the free memory in bytes and the keyword arguments of the call,
    and returns how many slices fit. *)

(** What an estimator can raise: a missing key, the failed [assert], an
    integer division by zero, or [int] applied to an infinity or a NaN. *)
Inductive est_error :=
  | KeyError (key : string)
  | AssertionError (msg : string)
  | ZeroDivisionError
  | NotFinite.

Inductive checked (A : Type) :=
  | Done (a : A)
  | Fail (e : est_error).
Arguments Done {A} a.
Arguments Fail {A} e.

(** An element type as the estimators receive it: any [np.dtype], of
    which they read [itemsize] only. *)
Record np_dtype_obj := DType { dtype_name : string; itemsize : Z }.

Definition np_uint16 : np_dtype_obj := DType "uint16" 2.
(** [float32()] *)
Definition np_float32 : np_dtype_obj := DType "float32" 4.

(** [complex64().itemsize] and [np.float64().nbytes] *)
Definition complex64_itemsize : Z := 8.
Definition float64_nbytes : Z := 8.

(** Results of the array library on integers are 64-bit and wrap
    around. *)
Definition int64_wrap (z : Z) : Z := ((z + 2 ^ 63) mod 2 ^ 64 - 2 ^ 63)%Z.

(** [np.prod] of a pair. *)
Definition np_prod (dims : Z * Z) : Z := int64_wrap (fst dims * snd dims).

(** [int(x)] of a real number: truncation towards zero. *)
Definition py_int (q : Q) : Z :=
  if Qle_bool 0 q then Qfloor q else Qceiling q.

(** [httomolibgpu/misc/morph.py], lines 34-45. The real-valued
    intermediate results are exact rationals. *)
Definition _calc_max_slices_sino_360_to_180 (other_dims : Z * Z)
    (dt : np_dtype_obj) (available_memory : Z) (kwargs : gmap string Q)
    : checked (Z * np_dtype_obj) :=
  match kwargs !! "overlap"%string with
  | None => Fail (AssertionError "Overlap not given")
  | Some ov =>
      let overlap := np_round ov in
      let in_slice := int64_wrap (np_prod other_dims * itemsize dt) in
      let out_slice :=
        (inject_Z (fst other_dims * (snd other_dims * 2 - overlap)) / 2
         * inject_Z (itemsize dt))%Q in
      let weights := (overlap * float64_nbytes)%Z in
      let available_memory := (available_memory - weights)%Z in
      let per_slice := (inject_Z in_slice + out_slice)%Q in
      if Qeq_bool per_slice 0 then Fail NotFinite
      else Done (Qfloor (inject_Z available_memory / per_slice), dt)
  end.

(** [httomolibgpu/recon/algorithm.py], lines 41-64. *)
Definition _calc_max_slices_FBP (non_slice_dims_shape : Z * Z)
    (dt : np_dtype_obj) (available_memory : Z) (kwargs : gmap string (option Z))
    : checked (Z * np_dtype_obj * (Z * Z)) :=
  let DetectorsLengthH := snd non_slice_dims_shape in
  let in_slice_size := int64_wrap (np_prod non_slice_dims_shape * itemsize dt) in
  let filter_size := ((DetectorsLengthH / 2 + 1) * itemsize np_float32)%Z in
  let freq_slice :=
    (fst non_slice_dims_shape * (DetectorsLengthH / 2 + 1)
     * complex64_itemsize)%Z in
  let fftplan_size := (freq_slice * 2)%Z in
  let filtered_in_data :=
    int64_wrap (np_prod non_slice_dims_shape * itemsize np_float32) in
  match kwargs !! "objsize"%string with
  | None => Fail (KeyError "objsize")
  | Some objsize =>
      let objsize := match objsize with
                     | None => DetectorsLengthH
                     | Some s => s
                     end in
      let output_dims := (objsize, objsize) in
      let astra_out_size := int64_wrap (np_prod output_dims * itemsize np_float32) in
      let available_memory := (available_memory - filter_size)%Z in
      let per_slice :=
        int64_wrap
          (int64_wrap
             (int64_wrap
                (int64_wrap (in_slice_size + filtered_in_data) + freq_slice)
              + fftplan_size)
           + astra_out_size) in
      if (per_slice =? 0)%Z then Fail ZeroDivisionError
      else Done ((available_memory / per_slice)%Z, np_float32, output_dims)
  end.

(** Lines 119-144. *)
Definition _calc_max_slices_SIRT (non_slice_dims_shape : Z * Z)
    (dt : np_dtype_obj) (available_memory : Z) (kwargs : gmap string (option Z))
    : checked (Z * np_dtype_obj * (Z * Z)) :=
  let DetectorsLengthH := snd non_slice_dims_shape in
  match kwargs !! "objsize"%string with
  | None => Fail (KeyError "objsize")
  | Some objsize =>
      let objsize := match objsize with
                     | None => DetectorsLengthH
                     | Some s => s
                     end in
      let output_dims := (objsize, objsize) in
      let data_out := int64_wrap (np_prod non_slice_dims_shape * itemsize dt) in
      let x_rec := int64_wrap (np_prod output_dims * itemsize dt) in
      let R_mat := data_out in
      let C_mat := x_rec in
      let C_R_res := int64_wrap (C_mat + int64_wrap (2 * R_mat)) in
      let astra_size := ((1 # 2) * inject_Z (int64_wrap (x_rec + data_out)))%Q in
      let total_mem :=
        py_int (inject_Z
                  (int64_wrap
                     (int64_wrap
                        (int64_wrap (int64_wrap (data_out + x_rec) + R_mat)
                         + C_mat)
                      + C_R_res))
                + astra_size)%Q in
      if (total_mem =? 0)%Z then Fail ZeroDivisionError
      else Done ((available_memory / total_mem)%Z, np_float32, output_dims)
  end.

(** Lines 206-231. *)
Definition _calc_max_slices_CGLS (non_slice_dims_shape : Z * Z)
    (dt : np_dtype_obj) (available_memory : Z) (kwargs : gmap string (option Z))
    : checked (Z * np_dtype_obj * (Z * Z)) :=
  let DetectorsLengthH := snd non_slice_dims_shape in
  match kwargs !! "objsize"%string with
  | None => Fail (KeyError "objsize")
  | Some objsize =>
      let objsize := match objsize with
                     | None => DetectorsLengthH
                     | Some s => s
                     end in
      let output_dims := (objsize, objsize) in
      let data_out := int64_wrap (np_prod non_slice_dims_shape * itemsize dt) in
      let x_rec := int64_wrap (np_prod output_dims * itemsize dt) in
      let d := x_rec in
      let r := data_out in
      let Ad := int64_wrap (2 * data_out) in
      let s := x_rec in
      let astra_size := ((1 # 2) * inject_Z (int64_wrap (x_rec + data_out)))%Q in
      let total_mem :=
        py_int (inject_Z
                  (int64_wrap
                     (int64_wrap
                        (int64_wrap
                           (int64_wrap (int64_wrap (data_out + x_rec) + d)
                            + r)
                         + Ad)
                      + s))
                + astra_size)%Q in
      if (total_mem =? 0)%Z then Fail ZeroDivisionError
      else Done ((available_memory / total_mem)%Z, np_float32, output_dims)
  end.

(** The object size an estimator works with: the keyword argument, or
    the detector width when it is [None]. *)
Definition obj_or (D : Z) (o : option Z) : Z :=
  match o with None => D | Some s => s end.

(** Dimensions small enough that no 64-bit result wraps. *)
Definition small (z : Z) : Prop := (0 <= z <= 2 ^ 24)%Z.

(** ** Basic facts about the runtime *)

Lemma clamp_index_nonneg len i :
  (0 <= i)%Z -> clamp_index len i = Nat.min (Z.to_nat i) len.
Proof.
  intros Hi. unfold clamp_index.
  destruct (Z.ltb_spec i 0) as [Hlt|_]; [lia | reflexivity].
Qed.

Lemma clamp_index_neg len i :
  (i < 0)%Z -> clamp_index len i = Z.to_nat (i + Z.of_nat len).
Proof.
  intros Hi. unfold clamp_index.
  destruct (Z.ltb_spec i 0) as [_|Hge]; [reflexivity | lia].
Qed.

Lemma slice_all len : slice_lo len all = 0 /\ slice_len len all = len.
Proof. unfold slice_len, slice_lo, slice_hi; simpl. lia. Qed.

Lemma slice_upto len b :
  b <= len -> slice_lo len (upto (Z.of_nat b)) = 0 /\
              slice_len len (upto (Z.of_nat b)) = b.
Proof.
  intros Hb. unfold slice_len, slice_lo, slice_hi; simpl.
  rewrite clamp_index_nonneg by lia. lia.
Qed.

Lemma slice_from len a :
  a <= len -> slice_lo len (from (Z.of_nat a)) = a /\
              slice_len len (from (Z.of_nat a)) = len - a.
Proof.
  intros Ha. unfold slice_len, slice_lo, slice_hi; simpl.
  rewrite clamp_index_nonneg by lia. lia.
Qed.

Lemma slice_between len a b :
  a <= b -> b <= len ->
  slice_lo len (between (Z.of_nat a) (Z.of_nat b)) = a /\
  slice_len len (between (Z.of_nat a) (Z.of_nat b)) = b - a.
Proof.
  intros Ha Hb. unfold slice_len, slice_lo, slice_hi; simpl.
  rewrite !clamp_index_nonneg by lia. lia.
Qed.

(** [v[-t:]] keeps the last [t] entries. *)
Lemma slice_from_end len t :
  0 < t -> t <= len ->
  slice_lo len (from (- Z.of_nat t)) = len - t /\
  slice_len len (from (- Z.of_nat t)) = t.
Proof.
  intros Ht Hl. unfold slice_len, slice_lo, slice_hi; simpl.
  rewrite clamp_index_neg by lia. lia.
Qed.

(** [v[:-t]] drops the last [t] entries when [t] is positive. *)
Lemma slice_upto_end len t :
  0 < t -> t <= len ->
  slice_lo len (upto (- Z.of_nat t)) = 0 /\
  slice_len len (upto (- Z.of_nat t)) = len - t.
Proof.
  intros Ht Hl. unfold slice_len, slice_lo, slice_hi; simpl.
  rewrite clamp_index_neg by lia. lia.
Qed.

(** [v[:-0]] is [v[:0]]: empty. *)
Lemma slice_upto_minus_zero len :
  slice_len len (upto (- 0)) = 0.
Proof. unfold slice_len, slice_lo, slice_hi; simpl. unfold clamp_index; simpl. lia. Qed.

Lemma bidx_lt len i : i < len -> bidx len i = i.
Proof.
  intros Hi. unfold bidx. destruct (Nat.eqb_spec len 1); [lia | reflexivity].
Qed.

Lemma bdim_same a : bdim a a = Some a.
Proof. unfold bdim. by rewrite Nat.eqb_refl. Qed.

Lemma in_range_true lo len i : lo <= i -> i < lo + len -> in_range lo len i = true.
Proof.
  intros H1 H2. unfold in_range.
  apply andb_true_intro; split; [by apply Nat.leb_le | by apply Nat.ltb_lt].
Qed.

Lemma in_range_false lo len i : i < lo \/ lo + len <= i -> in_range lo len i = false.
Proof.
  intros Hi. unfold in_range.
  destruct (Nat.leb_spec lo i), (Nat.ltb_spec i (lo + len)); simpl; try reflexivity; lia.
Qed.

Lemma length_linspace lo hi num : length (linspace lo hi num) = num.
Proof.
  destruct num as [|[|d]]; try reflexivity.
  unfold linspace. rewrite length_app, length_map, length_seq. simpl. lia.
Qed.

Lemma np_round_integer z : np_round (inject_Z z) = z.
Proof.
  unfold np_round. rewrite Qfloor_Z.
  assert (Hc : Qcompare (inject_Z z - inject_Z z) (1 # 2) = Lt).
  { unfold Qcompare, Qminus, Qplus, Qopp, inject_Z; simpl.
    apply Z.compare_lt_iff. lia. }
  by rewrite Hc.
Qed.

Section RuntimeFacts.
Context `{Backend}.

Lemma as3_dim0 (a : ndarray) d0 d1 d2 :
  shape a = [d0; d1; d2] -> dim0 (as3 a) = d0.
Proof. intros Hs. unfold as3; simpl. by rewrite Hs. Qed.

Lemma as3_dim1 (a : ndarray) d0 d1 d2 :
  shape a = [d0; d1; d2] -> dim1 (as3 a) = d1.
Proof. intros Hs. unfold as3; simpl. by rewrite Hs. Qed.

Lemma as3_dim2 (a : ndarray) d0 d1 d2 :
  shape a = [d0; d1; d2] -> dim2 (as3 a) = d2.
Proof. intros Hs. unfold as3; simpl. by rewrite Hs. Qed.

Lemma bind_ok {A B} (m : M A) (k : A -> M B) (h h' : heap) x :
  m h = (h', Ok x) -> bind m k h = k x h'.
Proof. intros E. unfold bind. by rewrite E. Qed.

Lemma bind_raise {A B} (m : M A) (k : A -> M B) (h h' : heap) e :
  m h = (h', Raise e) -> bind m k h = (h', Raise e).
Proof. intros E. unfold bind. by rewrite E. Qed.

Lemma cp_empty_run (h : heap) shp dt :
  Forall (fun z => 0 <= z)%Z shp ->
  cp_empty shp dt h =
    (<[fresh (dom h) := NdArray (map Z.to_nat shp) dt uninit]> h,
     Ok (fresh (dom h))).
Proof.
  intros Hs. unfold cp_empty.
  assert (Hb : forallb (Z.leb 0) shp = true).
  { induction Hs as [|z l Hz _ IH]; simpl; [reflexivity|].
    rewrite IH, andb_true_r. by apply Z.leb_le. }
  by rewrite Hb.
Qed.

Lemma fresh_loc_unused (h : heap) : h !! fresh (dom h) = None.
Proof. apply (not_elem_of_dom (D := gset nat)), is_fresh. Qed.

Lemma setitem3_run {A} (h : heap) dst a d0 d1 d2 s0 s1 s2
    (conv : A -> elem) (v : arr3 A) :
  h !! dst = Some a ->
  shape a = [d0; d1; d2] ->
  dim0 v = slice_len d0 s0 -> dim1 v = slice_len d1 s1 ->
  dim2 v = slice_len d2 s2 ->
  setitem3 dst s0 s1 s2 conv v h =
    (<[dst := assign3 a s0 s1 s2 conv v]> h, Ok tt).
Proof.
  intros Hl Hs E0 E1 E2. unfold setitem3, bind, deref. rewrite Hl, Hs.
  unfold fits. rewrite E0, E1, E2, !Nat.eqb_refl. reflexivity.
Qed.

(** An assignment whose last axis neither matches the region nor has
    length 1 is refused, and the store is left as it was. *)
Lemma setitem3_refused {A} (h : heap) dst a d0 d1 d2 s0 s1 s2
    (conv : A -> elem) (v : arr3 A) :
  h !! dst = Some a ->
  shape a = [d0; d1; d2] ->
  dim2 v <> slice_len d2 s2 -> dim2 v <> 1 ->
  setitem3 dst s0 s1 s2 conv v h =
    (h, Raise (ValueError "could not broadcast input array")).
Proof.
  intros Hl Hs N1 N2. unfold setitem3, bind, deref. rewrite Hl, Hs.
  unfold fits.
  destruct (Nat.eqb_spec (dim2 v) (slice_len d2 s2)); [done|].
  destruct (Nat.eqb_spec (dim2 v) 1); [done|].
  by rewrite !andb_false_r.
Qed.

Lemma assign3_shape {A} a s0 s1 s2 (conv : A -> elem) v :
  shape (assign3 a s0 s1 s2 conv v) = shape a.
Proof. reflexivity. Qed.

Lemma assign3_dtype {A} a s0 s1 s2 (conv : A -> elem) v :
  dtype_of (assign3 a s0 s1 s2 conv v) = dtype_of a.
Proof. reflexivity. Qed.
End RuntimeFacts.

Ltac bidx_simpl :=
  repeat match goal with
         | |- context [bidx ?l ?x] => rewrite (bidx_lt l x) by lia
         end.

(** ** The two branches, run on a freshly allocated output *)

Section Branches.
Context `{Backend}.

Lemma wmul_run w (v : arr3 elem) :
  length w = dim2 v ->
  wmul w v = Ok (Arr3 (dim0 v) (dim1 v) (dim2 v) (fun i j k =>
    smul (of_weight (nth (bidx (length w) k) w 0%Q))
         (promote (at3 v i j (bidx (dim2 v) k))))).
Proof. intros E. unfold wmul. rewrite E, bdim_same. reflexivity. Qed.

Lemma add3_run (u v : arr3 scalar) :
  dim0 u = dim0 v -> dim1 u = dim1 v -> dim2 u = dim2 v ->
  add3 u v = Ok (Arr3 (dim0 u) (dim1 u) (dim2 u) (fun i j k =>
    sadd (at3 u (bidx (dim0 u) i) (bidx (dim1 u) j) (bidx (dim2 u) k))
         (at3 v (bidx (dim0 v) i) (bidx (dim1 v) j) (bidx (dim2 v) k)))).
Proof.
  intros E0 E1 E2. unfold add3. rewrite <- E0, <- E1, <- E2, !bdim_same.
  reflexivity.
Qed.

Lemma lift_run {A} (r : result A) (h : heap) : lift r h = (h, r).
Proof. reflexivity. Qed.

Lemma fill_left_run (h : heap) out e (a : ndarray) dt n R C P ov :
  h !! out = Some e -> shape e = [n; R; 2 * C - ov] ->
  shape a = [P; R; C] -> 2 * n <= P -> ov < C ->
  exists filled,
    fill_left out (as3 a) dt (Z.of_nat n) (Z.of_nat C) (Z.of_nat ov) h
      = (<[out := filled]> h, Ok tt) /\
    shape filled = shape e /\ dtype_of filled = dtype_of e /\
    forall i j k, i < n -> j < R -> k < 2 * C - ov ->
      item filled [i; j; k] = left_cell a dt n C ov i j k.
Proof.
  intros Ho He Ha Hn Hov.
  pose proof (as3_dim0 a _ _ _ Ha) as A0.
  pose proof (as3_dim1 a _ _ _ Ha) as A1.
  pose proof (as3_dim2 a _ _ _ Ha) as A2.
  unfold fill_left. cbv zeta.
  replace (- Z.of_nat C + Z.of_nat ov)%Z with (- Z.of_nat (C - ov))%Z by lia.
  replace (Z.of_nat C - Z.of_nat ov)%Z with (Z.of_nat (C - ov)) by lia.
  replace (2 * Z.of_nat n)%Z with (Z.of_nat (2 * n)) by lia.
  rewrite Nat2Z.id.
  destruct (slice_all n) as [Ln0 Ll0].
  destruct (slice_all R) as [Lr0 Lrl].
  destruct (slice_from_end (2 * C - ov) (C - ov)) as [T0 Tl]; [lia|lia|].
  destruct (slice_upto (2 * C - ov) (C - ov)) as [U0 Ul]; [lia|].
  destruct (slice_between (2 * C - ov) (C - ov) C) as [B0 Bl]; [lia|lia|].
  destruct (slice_upto P n) as [Pn0 Pnl]; [lia|].
  destruct (slice_between P n (2 * n)) as [Pb0 Pbl]; [lia|lia|].
  destruct (slice_from C ov) as [Cf0 Cfl]; [lia|].
  destruct (slice_upto C ov) as [Cu0 Cul]; [lia|].
  replace (2 * C - ov - (C - ov)) with C in T0 by lia.
  replace (C - (C - ov)) with ov in Bl by lia.
  replace (2 * n - n) with n in Pbl by lia.
  erewrite bind_ok; cycle 1.
  { eapply setitem3_run; [exact Ho | exact He | ..];
      cbn [slice3 flip2 dim0 dim1 dim2]; rewrite ?A0, ?A1, ?A2; lia. }
  erewrite bind_ok; cycle 1.
  { eapply setitem3_run; [apply lookup_insert_eq | rewrite assign3_shape; exact He | ..];
      cbn [slice3 flip2 dim0 dim1 dim2]; rewrite ?A0, ?A1, ?A2; lia. }
  rewrite insert_insert_eq.
  erewrite bind_ok; cycle 1.
  { rewrite lift_run, wmul_run; [reflexivity|].
    rewrite length_linspace. cbn [slice3 dim2]. rewrite A2. lia. }
  erewrite bind_ok; cycle 1.
  { rewrite lift_run, wmul_run; [reflexivity|].
    rewrite length_linspace. cbn [slice3 dim2]. rewrite A2. lia. }
  erewrite bind_ok; cycle 1.
  { rewrite lift_run, add3_run; [reflexivity|..];
      cbn [slice3 flip2 dim0 dim1 dim2]; rewrite ?A0, ?A1, ?A2; lia. }
  erewrite setitem3_run; cycle 1.
  { apply lookup_insert_eq. }
  { rewrite !assign3_shape; exact He. }
  1-3: cbn [slice3 flip2 dim0 dim1 dim2]; rewrite ?A0, ?A1, ?A2; lia.
  rewrite insert_insert_eq.
  eexists; split; [reflexivity|]. split; [reflexivity|]. split; [reflexivity|].
  intros i j k Hi Hj Hk.
  unfold assign3. cbn [item as3 dim0 dim1 dim2 shape slice3 flip2 at3].
  rewrite He, Ha. cbn [nth].
  rewrite ?Ln0, ?Ll0, ?Lr0, ?Lrl, ?T0, ?Tl, ?U0, ?Ul, ?B0, ?Bl, ?Pn0, ?Pnl, ?Pb0, ?Pbl, ?Cf0, ?Cfl, ?Cu0, ?Cul.
  rewrite length_linspace.
  rewrite !(in_range_true 0 n i), !(in_range_true 0 R j) by lia.
  cbn [andb]. unfold left_cell, id.
  destruct (Nat.ltb_spec k (C - ov)) as [K1|K1].
  - rewrite (in_range_false (C - ov) ov k), (in_range_true 0 (C - ov) k) by lia.
    cbv iota. bidx_simpl. repeat (f_equal; try lia).
  - destruct (Nat.ltb_spec k C) as [K2|K2].
    + rewrite (in_range_true (C - ov) ov k) by lia.
      cbv iota. bidx_simpl.
      repeat (f_equal; try lia).
    + rewrite (in_range_false (C - ov) ov k), (in_range_false 0 (C - ov) k),
        (in_range_true C (C - ov) k) by lia.
      cbv iota. bidx_simpl. repeat (f_equal; try lia).
Qed.

Lemma fill_right_run (h : heap) out e (a : ndarray) dt n R C P ov :
  h !! out = Some e -> shape e = [n; R; 2 * C - ov] ->
  shape a = [P; R; C] -> 2 * n <= P -> 0 < ov -> ov < C ->
  exists filled,
    fill_right out (as3 a) dt (Z.of_nat n) (Z.of_nat C) (Z.of_nat ov) h
      = (<[out := filled]> h, Ok tt) /\
    shape filled = shape e /\ dtype_of filled = dtype_of e /\
    forall i j k, i < n -> j < R -> k < 2 * C - ov ->
      item filled [i; j; k] = right_cell a dt n C ov i j k.
Proof.
  intros Ho He Ha Hn Hpos Hov.
  pose proof (as3_dim0 a _ _ _ Ha) as A0.
  pose proof (as3_dim1 a _ _ _ Ha) as A1.
  pose proof (as3_dim2 a _ _ _ Ha) as A2.
  unfold fill_right. cbv zeta.
  replace (- Z.of_nat C + Z.of_nat ov)%Z with (- Z.of_nat (C - ov))%Z by lia.
  replace (Z.of_nat C - Z.of_nat ov)%Z with (Z.of_nat (C - ov)) by lia.
  replace (2 * Z.of_nat n)%Z with (Z.of_nat (2 * n)) by lia.
  rewrite Nat2Z.id.
  destruct (slice_all n) as [Ln0 Ll0].
  destruct (slice_all R) as [Lr0 Lrl].
  destruct (slice_from_end (2 * C - ov) (C - ov)) as [T0 Tl]; [lia|lia|].
  destruct (slice_upto (2 * C - ov) (C - ov)) as [U0 Ul]; [lia|].
  destruct (slice_between (2 * C - ov) (C - ov) C) as [B0 Bl]; [lia|lia|].
  destruct (slice_upto P n) as [Pn0 Pnl]; [lia|].
  destruct (slice_between P n (2 * n)) as [Pb0 Pbl]; [lia|lia|].
  destruct (slice_upto_end C ov) as [Cu0 Cul]; [lia|lia|].
  destruct (slice_from_end C ov) as [Cf0 Cfl]; [lia|lia|].
  replace (2 * C - ov - (C - ov)) with C in T0 by lia.
  replace (C - (C - ov)) with ov in Bl by lia.
  replace (2 * n - n) with n in Pbl by lia.
  erewrite bind_ok; cycle 1.
  { eapply setitem3_run; [exact Ho | exact He | ..];
      cbn [slice3 flip2 dim0 dim1 dim2]; rewrite ?A0, ?A1, ?A2; lia. }
  erewrite bind_ok; cycle 1.
  { eapply setitem3_run; [apply lookup_insert_eq | rewrite assign3_shape; exact He | ..];
      cbn [slice3 flip2 dim0 dim1 dim2]; rewrite ?A0, ?A1, ?A2; lia. }
  rewrite insert_insert_eq.
  erewrite bind_ok; cycle 1.
  { rewrite lift_run, wmul_run; [reflexivity|].
    rewrite length_linspace. cbn [slice3 dim2]. rewrite A2. lia. }
  erewrite bind_ok; cycle 1.
  { rewrite lift_run, wmul_run; [reflexivity|].
    rewrite length_linspace. cbn [slice3 dim2]. rewrite A2. lia. }
  erewrite bind_ok; cycle 1.
  { rewrite lift_run, add3_run; [reflexivity|..];
      cbn [slice3 flip2 dim0 dim1 dim2]; rewrite ?A0, ?A1, ?A2; lia. }
  erewrite setitem3_run; cycle 1.
  { apply lookup_insert_eq. }
  { rewrite !assign3_shape; exact He. }
  1-3: cbn [slice3 flip2 dim0 dim1 dim2]; rewrite ?A0, ?A1, ?A2; lia.
  rewrite insert_insert_eq.
  eexists; split; [reflexivity|]. split; [reflexivity|]. split; [reflexivity|].
  intros i j k Hi Hj Hk.
  unfold assign3. cbn [item as3 dim0 dim1 dim2 shape slice3 flip2 at3].
  rewrite He, Ha. cbn [nth].
  rewrite ?Ln0, ?Ll0, ?Lr0, ?Lrl, ?T0, ?Tl, ?U0, ?Ul, ?B0, ?Bl, ?Pn0, ?Pnl, ?Pb0, ?Pbl, ?Cf0, ?Cfl, ?Cu0, ?Cul.
  rewrite length_linspace.
  rewrite !(in_range_true 0 n i), !(in_range_true 0 R j) by lia.
  cbn [andb]. unfold right_cell, id.
  destruct (Nat.ltb_spec k (C - ov)) as [K1|K1].
  - rewrite (in_range_false (C - ov) ov k), (in_range_false C (C - ov) k),
      (in_range_true 0 (C - ov) k) by lia.
    cbv iota. bidx_simpl. repeat (f_equal; try lia).
  - destruct (Nat.ltb_spec k C) as [K2|K2].
    + rewrite (in_range_true (C - ov) ov k) by lia.
      cbv iota. bidx_simpl.
      repeat (f_equal; try lia).
    + rewrite (in_range_false (C - ov) ov k), (in_range_true C (C - ov) k) by lia.
      cbv iota. bidx_simpl. repeat (f_equal; try lia).
Qed.

(** With no overlap, [data[:n, :, :-0]] is empty and the first store of
    the branch is refused. *)
Lemma fill_right_no_overlap (h : heap) out e (a : ndarray) dt n R C P :
  h !! out = Some e -> shape e = [n; R; 2 * C - 0] ->
  shape a = [P; R; C] -> 0 < C ->
  fill_right out (as3 a) dt (Z.of_nat n) (Z.of_nat C) (Z.of_nat 0) h
    = (h, Raise (ValueError "could not broadcast input array")).
Proof.
  intros Ho He Ha HC.
  pose proof (as3_dim2 a _ _ _ Ha) as A2.
  unfold fill_right. cbv zeta.
  erewrite bind_raise; [reflexivity|].
  eapply setitem3_refused; [exact Ho | exact He | ..];
    cbn [slice3 dim2]; rewrite A2; change (- Z.of_nat 0)%Z with (- 0)%Z;
    rewrite slice_upto_minus_zero.
  - replace (Z.of_nat C - Z.of_nat 0)%Z with (Z.of_nat C) by lia.
    destruct (slice_upto (2 * C - 0) C) as [_ ->]; lia.
  - lia.
Qed.
End Branches.

(** ** The whole function *)

Section Stitch.
Context `{Backend}.

Lemma half_of_nat P : (Z.of_nat P / 2)%Z = Z.of_nat (P / 2).
Proof. by rewrite (Nat2Z.inj_div P 2). Qed.

Lemma sino_dangling (h : heap) data q rot :
  h !! data = None -> sino_360_to_180 data q rot h = (h, Raise DanglingRef).
Proof. intros Hd. unfold sino_360_to_180, bind, deref. by rewrite Hd. Qed.

Lemma sino_not_3d (h : heap) data a q rot :
  h !! data = Some a -> ndim a <> 3 ->
  sino_360_to_180 data q rot h
    = (h, Raise (ValueError "only 3D data is supported")).
Proof.
  intros Hd Hn. unfold sino_360_to_180, bind, deref. rewrite Hd.
  destruct (Nat.eqb_spec (ndim a) 3); [done | reflexivity].
Qed.

Lemma sino_overlap_too_large (h : heap) data a P R C q rot :
  h !! data = Some a -> shape a = [P; R; C] ->
  (Z.of_nat C <= np_round q)%Z ->
  sino_360_to_180 data q rot h
    = (h, Raise (ValueError "overlap must be less than data.shape[2]")).
Proof.
  intros Hd Hs Hq. unfold sino_360_to_180, bind, deref. rewrite Hd.
  unfold ndim. rewrite Hs. cbn [length Nat.eqb negb]. cbv zeta.
  rewrite (as3_dim2 a _ _ _ Hs).
  destruct (Z.geb_spec (np_round q) (Z.of_nat C)); [reflexivity | lia].
Qed.

Lemma sino_overlap_negative (h : heap) data a P R C q rot :
  h !! data = Some a -> shape a = [P; R; C] ->
  (np_round q < 0)%Z ->
  sino_360_to_180 data q rot h
    = (h, Raise (ValueError "only positive overlaps are allowed.")).
Proof.
  intros Hd Hs Hq. unfold sino_360_to_180, bind, deref. rewrite Hd.
  unfold ndim. rewrite Hs. cbn [length Nat.eqb negb]. cbv zeta.
  rewrite (as3_dim2 a _ _ _ Hs).
  destruct (Z.geb_spec (np_round q) (Z.of_nat C)); [lia|].
  destruct (Z.ltb_spec (np_round q) 0); [reflexivity | lia].
Qed.

(** Past the checks, the output is allocated and one branch runs. *)
Lemma sino_validated (h : heap) data a P R C q ov rot :
  h !! data = Some a -> shape a = [P; R; C] ->
  np_round q = Z.of_nat ov -> ov < C ->
  sino_360_to_180 data q rot h =
    ((if String.eqb rot "left" then
        fill_left (fresh (dom h)) (as3 a) (dtype_of a)
          (Z.of_nat (P / 2)) (Z.of_nat C) (Z.of_nat ov)
      else if String.eqb rot "right" then
        fill_right (fresh (dom h)) (as3 a) (dtype_of a)
          (Z.of_nat (P / 2)) (Z.of_nat C) (Z.of_nat ov)
      else raise (ValueError
                    "rotation parameter must be either 'left' or 'right'")) ;;;
     ret (fresh (dom h)))
      (<[fresh (dom h) := NdArray [P / 2; R; 2 * C - ov] (dtype_of a) uninit]> h).
Proof.
  intros Hd Hs Hq Hov. unfold sino_360_to_180. unfold bind at 1, deref. rewrite Hd.
  unfold ndim. rewrite Hs. cbn [length Nat.eqb negb]. cbv zeta.
  rewrite (as3_dim0 a _ _ _ Hs), (as3_dim1 a _ _ _ Hs), (as3_dim2 a _ _ _ Hs), Hq.
  destruct (Z.geb_spec (Z.of_nat ov) (Z.of_nat C)); [lia|].
  destruct (Z.ltb_spec (Z.of_nat ov) 0); [lia|].
  rewrite half_of_nat.
  erewrite bind_ok; [| apply cp_empty_run; repeat constructor; lia].
  cbn [map]. rewrite !Nat2Z.id.
  replace (Z.to_nat (2 * Z.of_nat C - Z.of_nat ov)) with (2 * C - ov) by lia.
  reflexivity.
Qed.
End Stitch.

Section StitchRuns.
Context `{Backend}.

Lemma sino_left_run (h : heap) data a P R C q ov :
  h !! data = Some a -> shape a = [P; R; C] ->
  np_round q = Z.of_nat ov -> ov < C ->
  exists out,
    sino_360_to_180 data q "left" h
      = (<[fresh (dom h) := out]> h, Ok (fresh (dom h))) /\
    shape out = [P / 2; R; 2 * C - ov] /\
    dtype_of out = dtype_of a /\
    forall i j k, i < P / 2 -> j < R -> k < 2 * C - ov ->
      item out [i; j; k] = left_cell a (dtype_of a) (P / 2) C ov i j k.
Proof.
  intros Hd Hs Hq Hov.
  rewrite (sino_validated h data a P R C q ov) by done.
  cbn [String.eqb Ascii.eqb Bool.eqb].
  set (o := fresh (dom h)).
  set (e := NdArray [P / 2; R; 2 * C - ov] (dtype_of a) uninit).
  destruct (fill_left_run (<[o := e]> h) o e a (dtype_of a) (P / 2) R C P ov)
    as (filled & Hrun & Hshape & Hdt & Hcells);
    [apply lookup_insert_eq | reflexivity | exact Hs | | exact Hov |].
  { pose proof (Nat.Div0.mul_div_le P 2). lia. }
  exists filled. split; [|done].
  erewrite bind_ok; [|exact Hrun]. unfold ret. by rewrite insert_insert_eq.
Qed.

Lemma sino_right_run (h : heap) data a P R C q ov :
  h !! data = Some a -> shape a = [P; R; C] ->
  np_round q = Z.of_nat ov -> 0 < ov -> ov < C ->
  exists out,
    sino_360_to_180 data q "right" h
      = (<[fresh (dom h) := out]> h, Ok (fresh (dom h))) /\
    shape out = [P / 2; R; 2 * C - ov] /\
    dtype_of out = dtype_of a /\
    forall i j k, i < P / 2 -> j < R -> k < 2 * C - ov ->
      item out [i; j; k] = right_cell a (dtype_of a) (P / 2) C ov i j k.
Proof.
  intros Hd Hs Hq Hpos Hov.
  rewrite (sino_validated h data a P R C q ov) by done.
  cbn [String.eqb Ascii.eqb Bool.eqb].
  set (o := fresh (dom h)).
  set (e := NdArray [P / 2; R; 2 * C - ov] (dtype_of a) uninit).
  destruct (fill_right_run (<[o := e]> h) o e a (dtype_of a) (P / 2) R C P ov)
    as (filled & Hrun & Hshape & Hdt & Hcells);
    [apply lookup_insert_eq | reflexivity | exact Hs | | exact Hpos | exact Hov |].
  { pose proof (Nat.Div0.mul_div_le P 2). lia. }
  exists filled. split; [|done].
  erewrite bind_ok; [|exact Hrun]. unfold ret. by rewrite insert_insert_eq.
Qed.

Lemma sino_right_no_overlap (h : heap) data a P R C q :
  h !! data = Some a -> shape a = [P; R; C] ->
  np_round q = 0%Z -> 0 < C ->
  sino_360_to_180 data q "right" h
    = (<[fresh (dom h) := NdArray [P / 2; R; 2 * C - 0] (dtype_of a) uninit]> h,
       Raise (ValueError "could not broadcast input array")).
Proof.
  intros Hd Hs Hq HC.
  rewrite (sino_validated h data a P R C q 0) by done.
  cbn [String.eqb Ascii.eqb Bool.eqb].
  erewrite bind_raise; [reflexivity|].
  eapply fill_right_no_overlap; [apply lookup_insert_eq | reflexivity | exact Hs | exact HC].
Qed.

Lemma sino_bad_rotation (h : heap) data a P R C q ov rot :
  h !! data = Some a -> shape a = [P; R; C] ->
  np_round q = Z.of_nat ov -> ov < C ->
  rot <> "left"%string -> rot <> "right"%string ->
  sino_360_to_180 data q rot h
    = (<[fresh (dom h) := NdArray [P / 2; R; 2 * C - ov] (dtype_of a) uninit]> h,
       Raise (ValueError
                "rotation parameter must be either 'left' or 'right'")).
Proof.
  intros Hd Hs Hq Hov Hl Hr.
  rewrite (sino_validated h data a P R C q ov) by done.
  destruct (String.eqb_spec rot "left"); [done|].
  destruct (String.eqb_spec rot "right"); [done|].
  reflexivity.
Qed.

Lemma ndim_3_shape (a : ndarray) :
  ndim a = 3 -> exists P R C, shape a = [P; R; C].
Proof.
  unfold ndim. destruct (shape a) as [|P [|R [|C [|]]]]; simpl; try done.
  intros _. by exists P, R, C.
Qed.

(** Every call ends in one of the listed ways. *)
Lemma sino_outcome_complete (h : heap) data q rot :
  sino_outcome h data q rot (sino_360_to_180 data q rot h).
Proof.
  destruct (h !! data) as [a|] eqn:Hd.
  2:{ rewrite sino_dangling by done. by constructor. }
  destruct (decide (ndim a = 3)) as [H3|H3].
  2:{ erewrite sino_not_3d by done. by econstructor. }
  destruct (ndim_3_shape a H3) as (P & R & C & Hs).
  destruct (Z_le_gt_dec (Z.of_nat C) (np_round q)) as [Hge|Hlt].
  { erewrite sino_overlap_too_large by done. by econstructor. }
  destruct (Z_lt_le_dec (np_round q) 0) as [Hneg|Hpos].
  { erewrite sino_overlap_negative by done. by econstructor. }
  assert (Hq : np_round q = Z.of_nat (Z.to_nat (np_round q))) by lia.
  assert (Hov : Z.to_nat (np_round q) < C) by lia.
  set (ov := Z.to_nat (np_round q)) in *.
  destruct (decide (rot = "left"%string)) as [->|Hl].
  { destruct (sino_left_run h data a P R C q ov) as (out & -> & ? & ? & ?); try done.
    by eapply out_left. }
  destruct (decide (rot = "right"%string)) as [->|Hr].
  { destruct (decide (ov = 0)) as [Hz|Hnz].
    - rewrite Hz in Hq.
      erewrite (sino_right_no_overlap h data a P R C) by (done || lia).
      eapply out_right_no_overlap; try done. lia.
    - destruct (sino_right_run h data a P R C q ov) as (out & -> & ? & ? & ?);
        try done; [lia|].
      eapply out_right; try done. lia. }
  erewrite sino_bad_rotation by done. by eapply out_bad_rotation.
Qed.
End StitchRuns.

(** ** The index algebra of the output *)

Ltac arr3_eq_intro :=
  unfold equiv, arr3_equiv, arr3_eq, dims;
  cbn [slice3 flip2 map3 dim0 dim1 dim2 at3].

Section LeftAlgebra.
Context `{Backend}.

Lemma left_index_algebra (h : heap) data (a : ndarray) P R C ov :
  h !! data = Some a -> shape a = [P; R; C] -> ov < C ->
  exists out,
    sino_360_to_180 data (inject_Z (Z.of_nat ov)) "left" h
      = (<[fresh (dom h) := out]> h, Ok (fresh (dom h))) /\
    let n := Z.of_nat (P / 2) in
    let c := Z.of_nat C in
    let o := Z.of_nat ov in
    let w := linspace 0 1 ov in
    slice3 (as3 out) all all (from (- (c - o)))
      ≡ slice3 (as3 a) (upto n) all (from o) /\
    slice3 (as3 out) all all (upto (c - o))
      ≡ flip2 (slice3 (as3 a) (between n (2 * n)) all (from o)) /\
    exists w1 w2 s,
      wmul w (slice3 (as3 a) (upto n) all (upto o)) = Ok w1 /\
      wmul w (slice3 (as3 a) (between n (2 * n)) all (upto o)) = Ok w2 /\
      add3 w1 (flip2 w2) = Ok s /\
      slice3 (as3 out) all all (between (c - o) c)
        ≡ map3 (cast (dtype_of a)) s.
Proof.
  intros Hd Hs Hov.
  destruct (sino_left_run h data a P R C (inject_Z (Z.of_nat ov)) ov)
    as (out & Hrun & Hshape & Hdt & Hcells); try done.
  { apply np_round_integer. }
  exists out. split; [exact Hrun|]. cbv zeta.
  assert (Hn : 2 * (P / 2) <= P) by (pose proof (Nat.Div0.mul_div_le P 2); lia).
  set (n := P / 2) in *.
  pose proof (as3_dim0 a _ _ _ Hs) as A0.
  pose proof (as3_dim1 a _ _ _ Hs) as A1.
  pose proof (as3_dim2 a _ _ _ Hs) as A2.
  pose proof (as3_dim0 out _ _ _ Hshape) as O0.
  pose proof (as3_dim1 out _ _ _ Hshape) as O1.
  pose proof (as3_dim2 out _ _ _ Hshape) as O2.
  replace (- (Z.of_nat C - Z.of_nat ov))%Z with (- Z.of_nat (C - ov))%Z by lia.
  replace (Z.of_nat C - Z.of_nat ov)%Z with (Z.of_nat (C - ov)) by lia.
  replace (2 * Z.of_nat n)%Z with (Z.of_nat (2 * n)) by lia.
  destruct (slice_all n) as [Ln0 Ll0].
  destruct (slice_all R) as [Lr0 Lrl].
  destruct (slice_from_end (2 * C - ov) (C - ov)) as [T0 Tl]; [lia|lia|].
  destruct (slice_upto (2 * C - ov) (C - ov)) as [U0 Ul]; [lia|].
  destruct (slice_between (2 * C - ov) (C - ov) C) as [B0 Bl]; [lia|lia|].
  destruct (slice_upto P n) as [Pn0 Pnl]; [lia|].
  destruct (slice_between P n (2 * n)) as [Pb0 Pbl]; [lia|lia|].
  destruct (slice_from C ov) as [Cf0 Cfl]; [lia|].
  destruct (slice_upto C ov) as [Cu0 Cul]; [lia|].
  replace (2 * C - ov - (C - ov)) with C in T0 by lia.
  replace (C - (C - ov)) with ov in Bl by lia.
  replace (2 * n - n) with n in Pbl by lia.
  split; [|split].
  - arr3_eq_intro. rewrite A0, A1, A2, O0, O1, O2.
    rewrite Ln0, Ll0, Lr0, Lrl, T0, Tl, Pn0, Pnl, Cf0, Cfl.
    split; [reflexivity|]. intros i j k Hi Hj Hk.
    cbn [as3 at3]. rewrite Hcells by lia. unfold left_cell.
    destruct (Nat.ltb_spec (C + k) (C - ov)); [lia|].
    destruct (Nat.ltb_spec (C + k) C); [lia|].
    repeat (f_equal; try lia).
  - arr3_eq_intro. rewrite A0, A1, A2, O0, O1, O2.
    rewrite Ln0, Ll0, Lr0, Lrl, U0, Ul, Pb0, Pbl, Cf0, Cfl.
    split; [reflexivity|]. intros i j k Hi Hj Hk.
    cbn [as3 at3]. rewrite Hcells by lia. unfold left_cell.
    destruct (Nat.ltb_spec (0 + k) (C - ov)); [|lia].
    repeat (f_equal; try lia).
  - eexists _, _, _. split; [|split; [|split]].
    + apply wmul_run. rewrite length_linspace. cbn [slice3 dim2]. by rewrite A2, Cul.
    + apply wmul_run. rewrite length_linspace. cbn [slice3 dim2]. by rewrite A2, Cul.
    + apply add3_run; cbn [slice3 flip2 dim0 dim1 dim2]; rewrite ?A0, ?A1, ?A2; lia.
    + arr3_eq_intro. rewrite A0, A1, A2, O0, O1, O2.
      rewrite ?Ln0, ?Ll0, ?Lr0, ?Lrl, ?B0, ?Bl, ?Pn0, ?Pnl, ?Pb0, ?Pbl, ?Cu0, ?Cul.
      rewrite length_linspace.
      split; [reflexivity|]. intros i j k Hi Hj Hk.
      cbn [as3 at3]. rewrite Hcells by lia. unfold left_cell.
      destruct (Nat.ltb_spec (C - ov + k) (C - ov)); [lia|].
      destruct (Nat.ltb_spec (C - ov + k) C); [|lia].
      bidx_simpl. repeat (f_equal; try lia).
Qed.
End LeftAlgebra.

Section RightAlgebra.
Context `{Backend}.

Lemma right_index_algebra (h : heap) data (a : ndarray) P R C ov :
  h !! data = Some a -> shape a = [P; R; C] -> 0 < ov -> ov < C ->
  exists out,
    sino_360_to_180 data (inject_Z (Z.of_nat ov)) "right" h
      = (<[fresh (dom h) := out]> h, Ok (fresh (dom h))) /\
    let n := Z.of_nat (P / 2) in
    let c := Z.of_nat C in
    let o := Z.of_nat ov in
    let w := linspace 1 0 ov in
    slice3 (as3 out) all all (upto (c - o))
      ≡ slice3 (as3 a) (upto n) all (upto (- o)) /\
    slice3 (as3 out) all all (from (- (c - o)))
      ≡ flip2 (slice3 (as3 a) (between n (2 * n)) all (upto (- o))) /\
    exists w1 w2 s,
      wmul w (slice3 (as3 a) (upto n) all (from (- o))) = Ok w1 /\
      wmul w (slice3 (as3 a) (between n (2 * n)) all (from (- o))) = Ok w2 /\
      add3 w1 (flip2 w2) = Ok s /\
      slice3 (as3 out) all all (between (c - o) c)
        ≡ map3 (cast (dtype_of a)) s.
Proof.
  intros Hd Hs Hpos Hov.
  destruct (sino_right_run h data a P R C (inject_Z (Z.of_nat ov)) ov)
    as (out & Hrun & Hshape & Hdt & Hcells); try done.
  { apply np_round_integer. }
  exists out. split; [exact Hrun|]. cbv zeta.
  assert (Hn : 2 * (P / 2) <= P) by (pose proof (Nat.Div0.mul_div_le P 2); lia).
  set (n := P / 2) in *.
  pose proof (as3_dim0 a _ _ _ Hs) as A0.
  pose proof (as3_dim1 a _ _ _ Hs) as A1.
  pose proof (as3_dim2 a _ _ _ Hs) as A2.
  pose proof (as3_dim0 out _ _ _ Hshape) as O0.
  pose proof (as3_dim1 out _ _ _ Hshape) as O1.
  pose proof (as3_dim2 out _ _ _ Hshape) as O2.
  replace (- (Z.of_nat C - Z.of_nat ov))%Z with (- Z.of_nat (C - ov))%Z by lia.
  replace (Z.of_nat C - Z.of_nat ov)%Z with (Z.of_nat (C - ov)) by lia.
  replace (2 * Z.of_nat n)%Z with (Z.of_nat (2 * n)) by lia.
  destruct (slice_all n) as [Ln0 Ll0].
  destruct (slice_all R) as [Lr0 Lrl].
  destruct (slice_from_end (2 * C - ov) (C - ov)) as [T0 Tl]; [lia|lia|].
  destruct (slice_upto (2 * C - ov) (C - ov)) as [U0 Ul]; [lia|].
  destruct (slice_between (2 * C - ov) (C - ov) C) as [B0 Bl]; [lia|lia|].
  destruct (slice_upto P n) as [Pn0 Pnl]; [lia|].
  destruct (slice_between P n (2 * n)) as [Pb0 Pbl]; [lia|lia|].
  destruct (slice_upto_end C ov) as [Cu0 Cul]; [lia|lia|].
  destruct (slice_from_end C ov) as [Cf0 Cfl]; [lia|lia|].
  replace (2 * C - ov - (C - ov)) with C in T0 by lia.
  replace (C - (C - ov)) with ov in Bl by lia.
  replace (2 * n - n) with n in Pbl by lia.
  split; [|split].
  - arr3_eq_intro. rewrite A0, A1, A2, O0, O1, O2.
    rewrite Ln0, Ll0, Lr0, Lrl, U0, Ul, Pn0, Pnl, Cu0, Cul.
    split; [reflexivity|]. intros i j k Hi Hj Hk.
    cbn [as3 at3]. rewrite Hcells by lia. unfold right_cell.
    destruct (Nat.ltb_spec (0 + k) (C - ov)); [|lia].
    repeat (f_equal; try lia).
  - arr3_eq_intro. rewrite A0, A1, A2, O0, O1, O2.
    rewrite Ln0, Ll0, Lr0, Lrl, T0, Tl, Pb0, Pbl, Cu0, Cul.
    split; [reflexivity|]. intros i j k Hi Hj Hk.
    cbn [as3 at3]. rewrite Hcells by lia. unfold right_cell.
    destruct (Nat.ltb_spec (C + k) (C - ov)); [lia|].
    destruct (Nat.ltb_spec (C + k) C); [lia|].
    repeat (f_equal; try lia).
  - eexists _, _, _. split; [|split; [|split]].
    + apply wmul_run. rewrite length_linspace. cbn [slice3 dim2]. by rewrite A2, Cfl.
    + apply wmul_run. rewrite length_linspace. cbn [slice3 dim2]. by rewrite A2, Cfl.
    + apply add3_run; cbn [slice3 flip2 dim0 dim1 dim2]; rewrite ?A0, ?A1, ?A2; lia.
    + arr3_eq_intro. rewrite A0, A1, A2, O0, O1, O2.
      rewrite ?Ln0, ?Ll0, ?Lr0, ?Lrl, ?B0, ?Bl, ?Pn0, ?Pnl, ?Pb0, ?Pbl, ?Cf0, ?Cfl.
      rewrite length_linspace.
      split; [reflexivity|]. intros i j k Hi Hj Hk.
      cbn [as3 at3]. rewrite Hcells by lia. unfold right_cell.
      destruct (Nat.ltb_spec (C - ov + k) (C - ov)); [lia|].
      destruct (Nat.ltb_spec (C - ov + k) C); [|lia].
      bidx_simpl. repeat (f_equal; try lia).
Qed.

(** Without overlap the left branch puts the reversed second half in
    front of the first half. *)
Lemma left_concatenation (h : heap) data (a : ndarray) P R C :
  h !! data = Some a -> shape a = [P; R; C] -> 0 < C ->
  exists out,
    sino_360_to_180 data 0 "left" h
      = (<[fresh (dom h) := out]> h, Ok (fresh (dom h))) /\
    let n := Z.of_nat (P / 2) in
    let c := Z.of_nat C in
    slice3 (as3 out) all all (upto c)
      ≡ flip2 (slice3 (as3 a) (between n (2 * n)) all all) /\
    slice3 (as3 out) all all (from c) ≡ slice3 (as3 a) (upto n) all all.
Proof.
  intros Hd Hs HC.
  destruct (sino_left_run h data a P R C 0 0)
    as (out & Hrun & Hshape & Hdt & Hcells); try done.
  exists out. split; [exact Hrun|]. cbv zeta.
  assert (Hn : 2 * (P / 2) <= P) by (pose proof (Nat.Div0.mul_div_le P 2); lia).
  set (n := P / 2) in *.
  pose proof (as3_dim0 a _ _ _ Hs) as A0.
  pose proof (as3_dim1 a _ _ _ Hs) as A1.
  pose proof (as3_dim2 a _ _ _ Hs) as A2.
  pose proof (as3_dim0 out _ _ _ Hshape) as O0.
  pose proof (as3_dim1 out _ _ _ Hshape) as O1.
  pose proof (as3_dim2 out _ _ _ Hshape) as O2.
  replace (2 * Z.of_nat n)%Z with (Z.of_nat (2 * n)) by lia.
  destruct (slice_all n) as [Ln0 Ll0].
  destruct (slice_all R) as [Lr0 Lrl].
  destruct (slice_all C) as [Lc0 Lcl].
  destruct (slice_upto (2 * C - 0) C) as [U0 Ul]; [lia|].
  destruct (slice_from (2 * C - 0) C) as [F0 Fl]; [lia|].
  destruct (slice_upto P n) as [Pn0 Pnl]; [lia|].
  destruct (slice_between P n (2 * n)) as [Pb0 Pbl]; [lia|lia|].
  replace (2 * n - n) with n in Pbl by lia.
  replace (2 * C - 0 - C) with C in Fl by lia.
  split.
  - arr3_eq_intro. rewrite A0, A1, A2, O0, O1, O2.
    rewrite Ln0, Ll0, Lr0, Lrl, U0, Ul, Pb0, Pbl, Lc0, Lcl.
    split; [reflexivity|]. intros i j k Hi Hj Hk.
    cbn [as3 at3]. rewrite Hcells by lia. unfold left_cell.
    destruct (Nat.ltb_spec (0 + k) (C - 0)); [|lia].
    repeat (f_equal; try lia).
  - arr3_eq_intro. rewrite A0, A1, A2, O0, O1, O2.
    rewrite Ln0, Ll0, Lr0, Lrl, F0, Fl, Pn0, Pnl, Lc0, Lcl.
    split; [reflexivity|]. intros i j k Hi Hj Hk.
    cbn [as3 at3]. rewrite Hcells by lia. unfold left_cell.
    destruct (Nat.ltb_spec (C + k) (C - 0)); [lia|].
    destruct (Nat.ltb_spec (C + k) C); [lia|].
    repeat (f_equal; try lia).
Qed.
End RightAlgebra.

(** ** What a call touches and what it reads *)

Section Frame.
Context `{Backend}.

(** A call leaves the store as it was or adds one object at a fresh
    reference. *)
Lemma sino_store (h : heap) data q rot :
  fst (sino_360_to_180 data q rot h) = h \/
  exists out, fst (sino_360_to_180 data q rot h) = <[fresh (dom h) := out]> h.
Proof.
  destruct (sino_outcome_complete h data q rot); simpl; eauto.
Qed.

Lemma sino_frame (h : heap) data q rot l :
  is_Some (h !! l) -> fst (sino_360_to_180 data q rot h) !! l = h !! l.
Proof.
  intros [x Hx].
  destruct (sino_store h data q rot) as [->|[out ->]]; [done|].
  apply lookup_insert_ne. intros <-. by rewrite fresh_loc_unused in Hx.
Qed.

Lemma half_rows P : 2 * (P / 2) <= P.
Proof. pose proof (Nat.Div0.mul_div_le P 2). lia. Qed.

Lemma odd_half_rows P : Nat.odd P = true -> 2 * (P / 2) = P - 1.
Proof.
  intros Ho. apply Nat.odd_spec in Ho as [m ->].
  replace (2 * m + 1) with (1 + m * 2) by lia.
  rewrite Nat.div_add by lia. simpl. lia.
Qed.

Lemma left_cell_agree (a1 a2 : ndarray) dt n C ov i j k :
  (forall i' j' k', i' < 2 * n -> item a1 [i'; j'; k'] = item a2 [i'; j'; k']) ->
  i < n -> left_cell a1 dt n C ov i j k = left_cell a2 dt n C ov i j k.
Proof.
  intros Hag Hi. unfold left_cell.
  rewrite !(Hag (n + i)), !(Hag i) by lia. reflexivity.
Qed.

Lemma right_cell_agree (a1 a2 : ndarray) dt n C ov i j k :
  (forall i' j' k', i' < 2 * n -> item a1 [i'; j'; k'] = item a2 [i'; j'; k']) ->
  i < n -> right_cell a1 dt n C ov i j k = right_cell a2 dt n C ov i j k.
Proof.
  intros Hag Hi. unfold right_cell.
  rewrite !(Hag (n + i)), !(Hag i) by lia. reflexivity.
Qed.

(** Two inputs of one shape and element type that agree on rows
    [0 .. 2n) give the same outcome. *)
Lemma sino_rows_used (h : heap) data (a1 a2 : ndarray) P R C q rot :
  shape a1 = [P; R; C] -> shape a2 = [P; R; C] ->
  dtype_of a1 = dtype_of a2 ->
  (forall i j k, i < 2 * (P / 2) -> item a1 [i; j; k] = item a2 [i; j; k]) ->
  same_outcome (sino_360_to_180 data q rot (<[data := a1]> h))
               (sino_360_to_180 data q rot (<[data := a2]> h)).
Proof.
  intros S1 S2 Hdt Hag.
  assert (L1 : (<[data := a1]> h) !! data = Some a1) by apply lookup_insert_eq.
  assert (L2 : (<[data := a2]> h) !! data = Some a2) by apply lookup_insert_eq.
  assert (Hdom : dom (<[data := a2]> h) = dom (<[data := a1]> h))
    by (by rewrite !dom_insert_L).
  destruct (Z_le_gt_dec (Z.of_nat C) (np_round q)) as [Hge|Hlt].
  { erewrite !sino_overlap_too_large by done. reflexivity. }
  destruct (Z_lt_le_dec (np_round q) 0) as [Hneg|Hpos].
  { erewrite !sino_overlap_negative by done. reflexivity. }
  assert (Hq : np_round q = Z.of_nat (Z.to_nat (np_round q))) by lia.
  assert (Hov : Z.to_nat (np_round q) < C) by lia.
  set (ov := Z.to_nat (np_round q)) in *.
  assert (Hsame : forall (o1 o2 : ndarray) cell,
    shape o1 = [P / 2; R; 2 * C - ov] -> shape o2 = [P / 2; R; 2 * C - ov] ->
    dtype_of o1 = dtype_of a1 -> dtype_of o2 = dtype_of a2 ->
    (forall i j k, i < P / 2 -> j < R -> k < 2 * C - ov ->
       item o1 [i; j; k] = cell a1 i j k) ->
    (forall i j k, i < P / 2 -> j < R -> k < 2 * C - ov ->
       item o2 [i; j; k] = cell a2 i j k) ->
    (forall i j k, i < P / 2 -> cell a1 i j k = cell a2 i j k) ->
    same_outcome
      (<[fresh (dom (<[data := a1]> h)) := o1]> (<[data := a1]> h),
       Ok (fresh (dom (<[data := a1]> h))))
      (<[fresh (dom (<[data := a2]> h)) := o2]> (<[data := a2]> h),
       Ok (fresh (dom (<[data := a2]> h))))).
  { intros o1 o2 cell So1 So2 D1 D2 C1 C2 Hc.
    unfold same_outcome; simpl. rewrite Hdom. split; [reflexivity|].
    exists o1, o2. rewrite !lookup_insert_eq.
    split; [done|]. split; [done|]. split; [congruence|]. split; [congruence|].
    unfold equiv, arr3_equiv, arr3_eq, dims.
    rewrite (as3_dim0 o1 _ _ _ So1), (as3_dim1 o1 _ _ _ So1), (as3_dim2 o1 _ _ _ So1).
    rewrite (as3_dim0 o2 _ _ _ So2), (as3_dim1 o2 _ _ _ So2), (as3_dim2 o2 _ _ _ So2).
    split; [reflexivity|]. intros i j k Hi Hj Hk. cbn [as3 at3].
    rewrite C1, C2 by done. by apply Hc. }
  destruct (decide (rot = "left"%string)) as [->|Hl].
  { destruct (sino_left_run _ data a1 P R C q ov L1 S1 Hq Hov) as (o1 & -> & ? & ? & ?).
    destruct (sino_left_run _ data a2 P R C q ov L2 S2 Hq Hov) as (o2 & -> & ? & ? & ?).
    apply (Hsame o1 o2 (fun a => left_cell a (dtype_of a) (P / 2) C ov)); try done.
    intros i j k Hi. rewrite Hdt. by apply left_cell_agree. }
  destruct (decide (rot = "right"%string)) as [->|Hr].
  { destruct (decide (ov = 0)) as [Hz|Hnz].
    - rewrite Hz in Hq.
      erewrite !(sino_right_no_overlap _ data _ P R C) by (done || lia).
      reflexivity.
    - assert (Hp : 0 < ov) by lia.
      destruct (sino_right_run _ data a1 P R C q ov L1 S1 Hq Hp Hov) as (o1 & -> & ? & ? & ?).
      destruct (sino_right_run _ data a2 P R C q ov L2 S2 Hq Hp Hov) as (o2 & -> & ? & ? & ?).
      apply (Hsame o1 o2 (fun a => right_cell a (dtype_of a) (P / 2) C ov)); try done.
      intros i j k Hi. rewrite Hdt. by apply right_cell_agree. }
  erewrite !sino_bad_rotation by done. reflexivity.
Qed.
End Frame.

(** ** The claims of the specification *)

(** C1: for rotation "left" and an integer overlap below the column
    count, the call returns an output whose trailing columns are the first
    half from column [overlap] on, whose leading columns are the second
    half from column [overlap] on with columns reversed, and whose middle
    band is the weighted first half plus the reversed weighted second
    half, with the ramp from 0 to 1 as weights; on the 4x1x6 input filled
    with 0..23 and overlap 2 the output is the 2x1x10 reference array. *)
Theorem C1_left_index_algebra :
  (forall (B : Backend) (h : gmap nat ndarray) (data : loc) (a : ndarray)
          (P R C ov : nat),
     h !! data = Some a -> shape a = [P; R; C] -> ov < C ->
     exists out,
       sino_360_to_180 data (inject_Z (Z.of_nat ov)) "left" h
         = (<[fresh (dom h) := out]> h, Ok (fresh (dom h))) /\
       let n := Z.of_nat (P / 2) in
       let c := Z.of_nat C in
       let o := Z.of_nat ov in
       let w := linspace 0 1 ov in
       slice3 (as3 out) all all (from (- (c - o)))
         ≡ slice3 (as3 a) (upto n) all (from o) /\
       slice3 (as3 out) all all (upto (c - o))
         ≡ flip2 (slice3 (as3 a) (between n (2 * n)) all (from o)) /\
       exists w1 w2 s,
         wmul w (slice3 (as3 a) (upto n) all (upto o)) = Ok w1 /\
         wmul w (slice3 (as3 a) (between n (2 * n)) all (upto o)) = Ok w2 /\
         add3 w1 (flip2 w2) = Ok s /\
         slice3 (as3 out) all all (between (c - o) c)
           ≡ map3 (cast (dtype_of a)) s) /\
  output_of (stitch 0 2 "left" (store_of (arange3 float32 4 1 6)))
    = Some ([2; 1; 10],
            map (map (map inject_Z))
              [[[17; 16; 15; 14; 13; 1; 2; 3; 4; 5]];
               [[23; 22; 21; 20; 19; 7; 8; 9; 10; 11]]]%Z).
Proof.
  split.
  - intros B h data a P R C ov Hd Hs Hov. by apply (left_index_algebra h data a P R C ov).
  - vm_compute. reflexivity.
Qed.

Lemma C1_left_index_algebra_witness :
  store_of (arange3 float32 4 1 6) !! 0 = Some (arange3 float32 4 1 6) /\
  2 < 6 /\
  is_ok (snd (stitch 0 (inject_Z (Z.of_nat 2)) "left"
                (store_of (arange3 float32 4 1 6)))) = true.
Proof.
  split; [reflexivity|]. split; [lia|].
  destruct (proj1 C1_left_index_algebra exact_backend
              (store_of (arange3 float32 4 1 6)) 0 (arange3 float32 4 1 6)
              4 1 6 2 eq_refl eq_refl ltac:(lia)) as (out & Hrun & _).
  unfold stitch. rewrite Hrun. reflexivity.
Defined.

(** C2 (the code departs from it): with rotation "right" and overlap 0,
    inside the claimed range, the call raises instead of returning. *)
Theorem C2_right_zero_overlap_raises :
  snd (stitch 0 0 "right" (store_of (arange3 float32 4 1 6)))
    = Raise (ValueError "could not broadcast input array").
Proof. vm_compute. reflexivity. Qed.

(** C3 (the code departs from it): on a valid input with rotation "right"
    and overlap 0 the buffer of the expected shape is allocated but no
    output is returned. *)
Theorem C3_no_output_right_zero_overlap :
  let r := stitch 0 0 "right" (store_of (arange3 uint16 2 1 3)) in
  snd r = Raise (ValueError "could not broadcast input array") /\
  output_of r = None /\
  (@shape exact_backend <$> fst r !! 1) = Some [1; 1; 6].
Proof. vm_compute. repeat split; reflexivity. Qed.

(** C4 (the code departs from it): with overlap 0 the "left" call
    concatenates the reversed second half and the first half, but the
    "right" call on the same input raises. *)
Theorem C4_zero_overlap_left_right :
  output_of (stitch 0 0 "left" (store_of (arange3 float32 2 1 3)))
    = Some ([1; 1; 6], map (map (map inject_Z)) [[[5; 4; 3; 0; 1; 2]]]%Z) /\
  snd (stitch 0 0 "right" (store_of (arange3 float32 2 1 3)))
    = Raise (ValueError "could not broadcast input array").
Proof. vm_compute. split; reflexivity. Qed.

(** C5: for an odd number of projections the outcome does not depend on
    the last projection row: two inputs that agree on rows 0 .. P-2 give
    the same exception or outputs with the same shape, element type and
    elements; and the call does return for rotation "left", and for
    rotation "right" with a positive overlap. *)
Theorem C5_last_row_ignored :
  forall (B : Backend) (h : gmap nat ndarray) (data : loc) (a1 a2 : ndarray)
         (P R C : nat) (q : Q) (rot : string),
    shape a1 = [P; R; C] -> shape a2 = [P; R; C] ->
    dtype_of a1 = dtype_of a2 ->
    Nat.odd P = true ->
    (forall i j k, i < P - 1 -> item a1 [i; j; k] = item a2 [i; j; k]) ->
    same_outcome (sino_360_to_180 data q rot (<[data := a1]> h))
                 (sino_360_to_180 data q rot (<[data := a2]> h)) /\
    ((0 <= np_round q < Z.of_nat C)%Z ->
     rot = "left"%string \/ (rot = "right"%string /\ (0 < np_round q)%Z) ->
     is_ok (snd (sino_360_to_180 data q rot (<[data := a1]> h))) = true).
Proof.
  intros B h data a1 a2 P R C q rot S1 S2 Hdt Hodd Hag. split.
  - eapply sino_rows_used; try done.
    intros i j k Hi. apply Hag. rewrite odd_half_rows in Hi by done. lia.
  - intros Hq Hrot.
    assert (L1 : (<[data := a1]> h) !! data = Some a1) by apply lookup_insert_eq.
    assert (Hov : np_round q = Z.of_nat (Z.to_nat (np_round q))) by lia.
    destruct Hrot as [->|[-> Hpos]].
    + destruct (sino_left_run _ data a1 P R C q _ L1 S1 Hov) as (o & -> & _); [lia|done].
    + destruct (sino_right_run _ data a1 P R C q _ L1 S1 Hov) as (o & -> & _); [lia|lia|done].
Qed.

Lemma C5_last_row_ignored_witness :
  same_outcome
    (stitch 0 1 "left" (<[0 := arange3 float32 5 1 4]> ∅))
    (stitch 0 1 "left"
       (<[0 := with_last_row (Q2Qc 999) (arange3 float32 5 1 4)]> ∅)).
Proof.
  refine (proj1 (C5_last_row_ignored exact_backend ∅ 0
            (arange3 float32 5 1 4)
            (with_last_row (Q2Qc 999) (arange3 float32 5 1 4))
            5 1 4 1 "left" eq_refl eq_refl eq_refl eq_refl _)).
  intros i j k Hi. simpl.
  destruct (Nat.eqb_spec i 4); [lia | reflexivity].
Defined.

(** C6: whatever the arguments and whether the call returns or raises,
    the object [data] refers to is the same after the call as before. *)
Theorem C6_data_not_mutated :
  forall (B : Backend) (h : gmap nat ndarray) (data : loc) (q : Q)
         (rot : string),
    fst (sino_360_to_180 data q rot h) !! data = h !! data.
Proof.
  intros B h data q rot.
  destruct (h !! data) as [a|] eqn:Hd.
  - rewrite <- Hd. apply sino_frame. eauto.
  - by rewrite sino_dangling.
Qed.

(** C7, as stated, fails: with an unrecognised rotation the call raises
    only after the output buffer has been allocated. *)
Lemma C7_counterexample :
  let h := store_of (arange3 float32 4 1 6) in
  let r := stitch 0 0 "up" h in
  snd r = Raise (ValueError
                   "rotation parameter must be either 'left' or 'right'") /\
  h !! 1 = None /\
  (@shape exact_backend <$> fst r !! 1) = Some [2; 1; 12].
Proof. vm_compute. repeat split; reflexivity. Qed.

(** C7, amended: a wrong dimensionality or an overlap out of range is
    reported with the store untouched, so before any allocation; an
    unrecognised rotation is reported after the output buffer has been
    allocated and before anything is written to it; in each case the call
    raises and returns no output. *)
Theorem C7_validation_order :
  forall (B : Backend) (h : gmap nat ndarray) (data : loc) (a : ndarray)
         (q : Q) (rot : string),
    h !! data = Some a ->
    (ndim a <> 3 ->
       sino_360_to_180 data q rot h
         = (h, Raise (ValueError "only 3D data is supported"))) /\
    (forall P R C, shape a = [P; R; C] ->
       (Z.of_nat C <= np_round q)%Z \/ (np_round q < 0)%Z ->
       fst (sino_360_to_180 data q rot h) = h /\
       range_error (snd (sino_360_to_180 data q rot h))) /\
    (forall P R C ov, shape a = [P; R; C] ->
       np_round q = Z.of_nat ov -> ov < C ->
       rot <> "left"%string -> rot <> "right"%string ->
       sino_360_to_180 data q rot h
         = (<[fresh (dom h) :=
                NdArray [P / 2; R; 2 * C - ov] (dtype_of a) uninit]> h,
            Raise (ValueError
                     "rotation parameter must be either 'left' or 'right'"))).
Proof.
  intros B h data a q rot Hd. split; [|split].
  - intros Hn. by apply (sino_not_3d h data a).
  - intros P R C Hs [Hge|Hneg].
    + erewrite sino_overlap_too_large by done. split; [done | by left].
    + erewrite sino_overlap_negative by done. split; [done | by right].
  - intros P R C ov Hs Hq Hov Hl Hr. by apply (sino_bad_rotation h data a).
Qed.

Lemma C7_validation_order_witness :
  store_of (arange3 float32 4 1 6) !! 0 = Some (arange3 float32 4 1 6) /\
  fst (stitch 0 6 "up" (store_of (arange3 float32 4 1 6)))
    = store_of (arange3 float32 4 1 6).
Proof.
  split; [reflexivity|].
  destruct (C7_validation_order exact_backend
              (store_of (arange3 float32 4 1 6)) 0 (arange3 float32 4 1 6)
              6 "up" eq_refl) as (_ & Hrange & _).
  destruct (Hrange 4 1 6 eq_refl) as [Hst _].
  - left. vm_compute. discriminate.
  - exact Hst.
Defined.

(** C8, as stated, fails: for an input without columns the overlap
    [C - 1] is -1 and the call raises. *)
Lemma C8_counterexample :
  snd (stitch 0 (inject_Z (0 - 1)) "left" (store_of (arange3 float32 2 1 0)))
    = Raise (ValueError "only positive overlaps are allowed.").
Proof. vm_compute. reflexivity. Qed.

(** C8, amended: for a 3-D input with at least one column the overlap
    [C - 1] is accepted and the call returns for rotation "left", and for
    rotation "right" when there are at least two columns; the overlaps [C]
    and -1 are refused by the range checks for every rotation; and the
    range checks refuse an overlap exactly when its rounded value is at
    least [C] or negative. *)
Theorem C8_overlap_bounds :
  forall (B : Backend) (h : gmap nat ndarray) (data : loc) (a : ndarray)
         (P R C : nat),
    h !! data = Some a -> shape a = [P; R; C] ->
    (forall rot, 1 <= C ->
       rot = "left"%string \/ (rot = "right"%string /\ 2 <= C) ->
       is_ok (snd (sino_360_to_180 data (inject_Z (Z.of_nat C - 1)) rot h))
         = true) /\
    (forall rot,
       range_error (snd (sino_360_to_180 data (inject_Z (Z.of_nat C)) rot h))) /\
    (forall rot,
       range_error (snd (sino_360_to_180 data (inject_Z (-1)) rot h))) /\
    (forall q rot,
       range_error (snd (sino_360_to_180 data q rot h)) <->
       (Z.of_nat C <= np_round q)%Z \/ (np_round q < 0)%Z).
Proof.
  intros B h data a P R C Hd Hs.
  assert (Hiff : forall q rot,
    range_error (snd (sino_360_to_180 data q rot h)) <->
    (Z.of_nat C <= np_round q)%Z \/ (np_round q < 0)%Z).
  { intros q rot. split.
    - intros Hr.
      destruct (sino_outcome_complete h data q rot) as
        [ Hn | a' Ha' H3 | a' P' R' C' Ha' Hs' Hge | a' P' R' C' Ha' Hs' Hneg
        | a' P' R' C' ov out Ha' Hs' Hq Hov Hrot
        | a' P' R' C' ov out Ha' Hs' Hq Hpos Hov Hrot
        | a' P' R' C' Ha' Hs' Hq HC Hrot
        | a' P' R' C' ov Ha' Hs' Hq Hov Hl Hrt ];
        simpl in Hr;
        try (destruct Hr as [Hr|Hr]; discriminate Hr).
      + assert (a' = a) by congruence. subst a'.
        assert (C' = C) by congruence. subst C'. by left.
      + by right.
    - intros [Hge|Hneg].
      + erewrite sino_overlap_too_large by done. by left.
      + erewrite sino_overlap_negative by done. by right. }
  split; [|split; [|split]]; [| | |exact Hiff].
  - intros rot HC Hrot.
    assert (Hq : np_round (inject_Z (Z.of_nat C - 1)) = Z.of_nat (C - 1))
      by (rewrite np_round_integer; lia).
    destruct Hrot as [->|[-> H2]].
    + destruct (sino_left_run h data a P R C _ (C - 1) Hd Hs Hq)
        as (o & -> & _); [lia | done].
    + destruct (sino_right_run h data a P R C _ (C - 1) Hd Hs Hq)
        as (o & -> & _); [lia | lia | done].
  - intros rot. apply Hiff. rewrite np_round_integer. left. lia.
  - intros rot. apply Hiff. rewrite np_round_integer. right. lia.
Qed.

Lemma C8_overlap_bounds_witness :
  store_of (arange3 float32 4 1 6) !! 0 = Some (arange3 float32 4 1 6) /\
  is_ok (snd (stitch 0 (inject_Z (Z.of_nat 6 - 1)) "right"
                (store_of (arange3 float32 4 1 6)))) = true.
Proof.
  split; [reflexivity|].
  destruct (C8_overlap_bounds exact_backend
              (store_of (arange3 float32 4 1 6)) 0 (arange3 float32 4 1 6)
              4 1 6 eq_refl eq_refl) as (Hmax & _).
  apply (Hmax "right"%string); [lia|]. right. split; [reflexivity | lia].
Defined.




(** C10: each of FBP, SIRT and CGLS replaces a missing centre by
    [data.shape[2] // 2] and a missing object size by [data.shape[2]],
    and gives the toolkit the centre offset
    [data.shape[2] / 2 - center - 0.5] and the negated angles. *)
Theorem C10_recon_geometry :
  forall (B : Backend) (T : Toolkit) (h : gmap nat ndarray) (data : loc)
         (a : ndarray) (s0 s1 s2 : nat) (rest : list nat)
         (angles : list Q) (center : option Q) (objsize : option Z)
         (iters : option Z) (nonneg : option bool) (gpu_id : Z),
    h !! data = Some a -> shape a = s0 :: s1 :: s2 :: rest ->
    let c := match center with
             | None => inject_Z (Z.of_nat s2 / 2)
             | Some c => c
             end in
    let g := {| DetectorsDimH := Z.of_nat s2;
                DetectorsDimV := Z.of_nat s1;
                CenterRotOffset := (inject_Z (Z.of_nat s2) / 2 - c - (1 # 2))%Q;
                AnglesVec := map Qopp angles;
                ObjSize := match objsize with
                           | None => Z.of_nat s2
                           | Some s => s
                           end;
                device_projector := gpu_id |} in
    FBP data angles center objsize gpu_id h
      = (h, Ok (RecToolsDIRCuPy_FBP3D g a)) /\
    SIRT data angles center objsize iters nonneg gpu_id h
      = (h, Ok (RecToolsIRCuPy_SIRT g a
                  {| iterations := iters; nonnegativity := nonneg |})) /\
    CGLS data angles center objsize iters nonneg gpu_id h
      = (h, Ok (RecToolsIRCuPy_CGLS g a
                  {| iterations := iters; nonnegativity := nonneg |})).
Proof.
  intros B T h data a s0 s1 s2 rest angles center objsize iters nonneg gpu_id
    Hd Hs. cbv zeta.
  assert (Hg : rec_tools a angles center objsize gpu_id h =
    (h, Ok {| DetectorsDimH := Z.of_nat s2;
              DetectorsDimV := Z.of_nat s1;
              CenterRotOffset :=
                (inject_Z (Z.of_nat s2) / 2
                 - match center with
                   | None => inject_Z (Z.of_nat s2 / 2)
                   | Some c => c
                   end - (1 # 2))%Q;
              AnglesVec := map Qopp angles;
              ObjSize := match objsize with
                         | None => Z.of_nat s2
                         | Some s => s
                         end;
              device_projector := gpu_id |})).
  { unfold rec_tools, shape_at, bind, lift, ret. rewrite Hs. simpl.
    destruct center, objsize; reflexivity. }
  unfold FBP, SIRT, CGLS.
  repeat split;
    (erewrite bind_ok; [| unfold deref; rewrite Hd; reflexivity]);
    (erewrite bind_ok; [| exact Hg]); reflexivity.
Qed.

Lemma C10_recon_geometry_witness :
  store_of (arange3 float32 4 2 6) !! 0 = Some (arange3 float32 4 2 6) /\
  @FBP exact_backend recording_toolkit 0 [1 # 2; 1]%Q None None 0
    (store_of (arange3 float32 4 2 6))
  = (store_of (arange3 float32 4 2 6),
     Ok (CallFBP3D
           {| DetectorsDimH := 6; DetectorsDimV := 2;
              CenterRotOffset := (inject_Z 6 / 2 - inject_Z (6 / 2) - (1 # 2))%Q;
              AnglesVec := [- (1 # 2); - 1]%Q;
              ObjSize := 6; device_projector := 0 |})).
Proof.
  split; [reflexivity|].
  exact (proj1 (C10_recon_geometry exact_backend recording_toolkit
                  (store_of (arange3 float32 4 2 6)) 0 (arange3 float32 4 2 6)
                  4 2 6 [] [1 # 2; 1]%Q None None None None 0
                  eq_refl eq_refl)).
Defined.

(** ** The memory estimators *)

Lemma int64_wrap_small z :
  (- 2 ^ 63 <= z < 2 ^ 63)%Z -> int64_wrap z = z.
Proof.
  intros Hz. unfold int64_wrap.
  rewrite Z.mod_small by lia. lia.
Qed.

Lemma int64_wrap_add_l a b : int64_wrap (int64_wrap a + b) = int64_wrap (a + b).
Proof.
  unfold int64_wrap. f_equal.
  replace ((a + 2 ^ 63) mod 2 ^ 64 - 2 ^ 63 + b + 2 ^ 63)%Z
    with ((a + 2 ^ 63) mod 2 ^ 64 + b)%Z by lia.
  rewrite Zplus_mod_idemp_l. f_equal. lia.
Qed.

Lemma int64_wrap_add_r a b : int64_wrap (a + int64_wrap b) = int64_wrap (a + b).
Proof. rewrite (Z.add_comm a), int64_wrap_add_l. f_equal. lia. Qed.

Lemma small_mul a b : small a -> small b -> (0 <= a * b <= 2 ^ 48)%Z.
Proof.
  unfold small. intros [Ha1 Ha2] [Hb1 Hb2]. split; [lia|].
  change (2 ^ 48)%Z with (2 ^ 24 * 2 ^ 24)%Z.
  apply Z.mul_le_mono_nonneg; lia.
Qed.

(** Bytes of one array of [a * b] elements, when nothing wraps. *)
Lemma slice_bytes a b dt :
  small a -> small b -> (0 <= itemsize dt <= 16)%Z ->
  int64_wrap (np_prod (a, b) * itemsize dt) = (a * b * itemsize dt)%Z /\
  (0 <= a * b * itemsize dt <= 2 ^ 52)%Z.
Proof.
  intros Ha Hb Hs. pose proof (small_mul a b Ha Hb) as Hm.
  assert (Hb2 : (0 <= a * b * itemsize dt <= 2 ^ 52)%Z).
  { split; [apply Z.mul_nonneg_nonneg; lia|].
    change (2 ^ 52)%Z with (2 ^ 48 * 16)%Z.
    apply Z.mul_le_mono_nonneg; lia. }
  split; [|exact Hb2].
  unfold np_prod; simpl. rewrite (int64_wrap_small (a * b)) by lia.
  apply int64_wrap_small. lia.
Qed.


Ltac unwrap64 :=
  repeat match goal with
         | |- context [int64_wrap ?z] =>
             rewrite (int64_wrap_small z)
               by (change (2 ^ 63)%Z with 9223372036854775808%Z; lia)
         end.


Lemma half_plus_one_small D : small D -> small (D / 2 + 1).
Proof.
  unfold small. intros [H1 H2].
  assert (D / 2 <= 2 ^ 23)%Z.
  { change (2 ^ 23)%Z with (2 ^ 24 / 2)%Z. by apply Z.div_le_mono. }
  assert (0 <= D / 2)%Z by (apply Z.div_pos; lia).
  change (2 ^ 24)%Z with 16777216%Z in *. change (2 ^ 23)%Z with 8388608%Z in *.
  lia.
Qed.

(** The value computed by the FBP estimator when nothing wraps. *)
Lemma FBP_closed_form A D dt avail (kwargs : gmap string (option Z)) o :
  small A -> small D -> (0 <= itemsize dt <= 16)%Z ->
  kwargs !! "objsize"%string = Some o ->
  small (obj_or D o) ->
  let obj := obj_or D o in
  let per := (A * D * itemsize dt + A * D * 4
              + 3 * (A * (D / 2 + 1) * 8) + obj * obj * 4)%Z in
  _calc_max_slices_FBP (A, D) dt avail kwargs =
    if (per =? 0)%Z then Fail ZeroDivisionError
    else Done (((avail - (D / 2 + 1) * 4) / per)%Z, np_float32, (obj, obj)).
Proof.
  intros HA HD Hs Hk Ho. cbv zeta.
  assert (H4 : (0 <= itemsize np_float32 <= 16)%Z) by (simpl; lia).
  unfold _calc_max_slices_FBP. cbn [fst snd]. rewrite Hk. fold (obj_or D o).
  destruct (slice_bytes A D dt HA HD Hs) as [-> B1].
  destruct (slice_bytes A D np_float32 HA HD H4) as [-> B2].
  destruct (slice_bytes _ _ np_float32 Ho Ho H4) as [-> B3].
  pose proof (small_mul A (D / 2 + 1) HA (half_plus_one_small D HD)) as B4.
  change (itemsize np_float32) with 4%Z in *. unfold complex64_itemsize.
  change (2 ^ 48)%Z with 281474976710656%Z in *.
  change (2 ^ 52)%Z with 4503599627370496%Z in *.
  change (2 ^ 63)%Z with 9223372036854775808%Z in *.
  unwrap64.
  replace (A * D * itemsize dt + A * D * 4 + A * (D / 2 + 1) * 8
           + A * (D / 2 + 1) * 8 * 2 + obj_or D o * obj_or D o * 4)%Z
    with (A * D * itemsize dt + A * D * 4 + 3 * (A * (D / 2 + 1) * 8)
          + obj_or D o * obj_or D o * 4)%Z by lia.
  reflexivity.
Qed.

Lemma per_slice_FBP_pos A D s obj :
  small A -> small D -> small obj -> (0 <= s)%Z ->
  (A * D * s + A * D * 4 + 3 * (A * (D / 2 + 1) * 8) + obj * obj * 4 = 0)%Z
  <-> A = 0%Z /\ obj = 0%Z.
Proof.
  intros HA HD Ho Hs.
  pose proof (half_plus_one_small D HD) as HD'.
  unfold small in *.
  assert (0 <= A * D)%Z by lia.
  assert (0 <= obj * obj)%Z by lia.
  assert (1 <= D / 2 + 1)%Z by (assert (0 <= D / 2)%Z by (apply Z.div_pos; lia); lia).
  split.
  - intros Hz. assert (0 <= A * D * s)%Z by nia.
    assert (A * (D / 2 + 1) = 0)%Z by nia.
    assert (obj * obj = 0)%Z by nia.
    split; nia.
  - intros [-> ->]. lia.
Qed.

(** X9: for slice dimensions and an object size up to 2^24, an item size
    up to 16 bytes and at least one projection, the FBP estimator returns
    [float32()], the output dimensions (objsize, objsize) with objsize
    defaulting to the detector width, and the largest slice count [k] with
    k * per_slice + filter <= available, where per_slice adds the input,
    the filtered input, three frequency slices and the output. *)
Theorem FBP_estimate_fits :
  forall (A D avail : Z) (dt : np_dtype_obj)
         (kwargs : gmap string (option Z)) (o : option Z),
    small A -> small D -> (0 <= itemsize dt <= 16)%Z -> (0 < A)%Z ->
    kwargs !! "objsize"%string = Some o -> small (obj_or D o) ->
    let obj := obj_or D o in
    let filter := ((D / 2 + 1) * 4)%Z in
    let per := (A * D * itemsize dt + A * D * 4
                + 3 * (A * (D / 2 + 1) * 8) + obj * obj * 4)%Z in
    exists k,
      _calc_max_slices_FBP (A, D) dt avail kwargs
        = Done (k, np_float32, (obj, obj)) /\
      (0 < per)%Z /\
      (k * per + filter <= avail < (k + 1) * per + filter)%Z.
Proof.
  intros A D avail dt kwargs o HA HD Hs Hpos Hk Ho. cbv zeta.
  rewrite (FBP_closed_form A D dt avail kwargs o) by done. cbv zeta.
  set (per := (A * D * itemsize dt + A * D * 4
               + 3 * (A * (D / 2 + 1) * 8) + obj_or D o * obj_or D o * 4)%Z).
  assert (Hper : (0 < per)%Z).
  { pose proof (half_plus_one_small D HD) as HD'. unfold small in *.
    assert (0 <= D / 2)%Z by (apply Z.div_pos; lia).
    assert (0 <= A * D)%Z by (apply Z.mul_nonneg_nonneg; lia).
    assert (0 <= A * D * itemsize dt)%Z by (apply Z.mul_nonneg_nonneg; lia).
    assert (1 * 1 <= A * (D / 2 + 1))%Z by (apply Z.mul_le_mono_nonneg; lia).
    assert (0 <= obj_or D o * obj_or D o)%Z by (apply Z.mul_nonneg_nonneg; lia).
    unfold per. lia. }
  destruct (Z.eqb_spec per 0) as [E|_]; [lia|].
  eexists. split; [reflexivity|]. split; [exact Hper|].
  pose proof (Z.mul_div_le (avail - (D / 2 + 1) * 4) per Hper).
  pose proof (Z.mul_succ_div_gt (avail - (D / 2 + 1) * 4) per Hper).
  lia.
Qed.

(** X10: the FBP estimator divides by zero exactly when there is no
    projection and the object size is 0. *)
Theorem FBP_estimate_zero_division :
  forall (A D avail : Z) (dt : np_dtype_obj)
         (kwargs : gmap string (option Z)) (o : option Z),
    small A -> small D -> (0 <= itemsize dt <= 16)%Z ->
    kwargs !! "objsize"%string = Some o -> small (obj_or D o) ->
    (_calc_max_slices_FBP (A, D) dt avail kwargs = Fail ZeroDivisionError
     <-> A = 0%Z /\ obj_or D o = 0%Z).
Proof.
  intros A D avail dt kwargs o HA HD Hs Hk Ho.
  rewrite (FBP_closed_form A D dt avail kwargs o) by done. cbv zeta.
  pose proof (per_slice_FBP_pos A D (itemsize dt) (obj_or D o) HA HD Ho
                (proj1 Hs)) as Hz.
  destruct (Z.eqb_spec
    (A * D * itemsize dt + A * D * 4 + 3 * (A * (D / 2 + 1) * 8)
     + obj_or D o * obj_or D o * 4) 0) as [E|N].
  - split; [intros _; by apply Hz | done].
  - split; [discriminate | intros Hc; by apply Hz in Hc].
Qed.


Lemma wrap_sums_agree d x :
  int64_wrap
    (int64_wrap
       (int64_wrap (int64_wrap (int64_wrap (d + x) + x) + d)
        + int64_wrap (2 * d)) + x)
  = int64_wrap
      (int64_wrap (int64_wrap (int64_wrap (d + x) + d) + x)
       + int64_wrap (x + int64_wrap (2 * d))).
Proof.
  rewrite (int64_wrap_add_l (d + x) x), (int64_wrap_add_l (d + x + x) d).
  rewrite (int64_wrap_add_l (d + x + x + d)), (int64_wrap_add_r _ (2 * d)).
  rewrite (int64_wrap_add_l (d + x + x + d + 2 * d) x).
  rewrite (int64_wrap_add_l (d + x) d), (int64_wrap_add_l (d + x + d) x).
  rewrite (int64_wrap_add_r x (2 * d)), (int64_wrap_add_l (d + x + d + x)).
  rewrite (int64_wrap_add_r _ (x + 2 * d)).
  f_equal; lia.
Qed.

(** X11: the SIRT and CGLS estimators return the same result on every
    input, 64-bit wrap-around included. *)
Theorem SIRT_CGLS_estimates_agree :
  forall (dims : Z * Z) (dt : np_dtype_obj) (avail : Z)
         (kwargs : gmap string (option Z)),
    _calc_max_slices_CGLS dims dt avail kwargs
      = _calc_max_slices_SIRT dims dt avail kwargs.
Proof.
  intros dims dt avail kwargs.
  unfold _calc_max_slices_CGLS, _calc_max_slices_SIRT.
  destruct (kwargs !! "objsize"%string) as [o|]; [|reflexivity].
  cbv zeta.
  rewrite wrap_sums_agree.
  reflexivity.
Qed.


Lemma Qfloor_div_half X N (per : Q) :
  (0 < N)%Z -> (per == N # 2)%Q ->
  Qfloor (inject_Z X / per) = ((2 * X) / N)%Z.
Proof.
  intros HN Hper.
  assert (E : (inject_Z X / per == inject_Z X / (N # 2))%Q) by (by rewrite Hper).
  rewrite E. destruct N as [|p|p]; try lia.
  unfold Qfloor, Qdiv, Qinv, Qmult, inject_Z; simpl.
  f_equal. lia.
Qed.

(** X7: with a valid overlap (after rounding) given, at least one
    projection and room for the weights, the sinogram estimator returns
    floor(2 (available - 8 overlap) / (P (4C - overlap) itemsize)) and the
    input's element type; that many slices of input, of actual output
    ((P // 2) rows of 2C - overlap columns) and the weights fit into the
    available memory. The item size is from 1 to 16 bytes. *)
Theorem sino_estimate_fits :
  forall (P C ov avail : Z) (dt : np_dtype_obj) (kwargs : gmap string Q)
         (q : Q),
    small P -> small C -> (1 <= itemsize dt <= 16)%Z ->
    (0 < P)%Z -> (0 <= ov < C)%Z ->
    kwargs !! "overlap"%string = Some q -> np_round q = ov ->
    (float64_nbytes * ov <= avail)%Z ->
    exists k,
      _calc_max_slices_sino_360_to_180 (P, C) dt avail kwargs = Done (k, dt) /\
      k = ((2 * (avail - ov * 8)) / (P * (4 * C - ov) * itemsize dt))%Z /\
      (0 <= k)%Z /\
      (k * ((P * C + (P / 2) * (2 * C - ov)) * itemsize dt) + ov * 8 <= avail)%Z.
Proof.
  intros P C ov avail dt kwargs q HP HC Hs HP0 Hov Hk Hq Hav.
  unfold float64_nbytes in Hav.
  unfold _calc_max_slices_sino_360_to_180. rewrite Hk, Hq. cbv zeta.
  cbn [fst snd]. unfold float64_nbytes.
  destruct (slice_bytes P C dt HP HC ltac:(lia)) as [-> B1].
  set (s := itemsize dt) in *.
  set (N := (P * (4 * C - ov) * s)%Z).
  assert (HN : (0 < N)%Z).
  { unfold N. apply Z.mul_pos_pos; [apply Z.mul_pos_pos|]; lia. }
  assert (Hper : (inject_Z (P * C * s)
                  + inject_Z (P * (C * 2 - ov)) / 2 * inject_Z s == N # 2)%Q).
  { unfold Qeq, Qplus, Qmult, Qdiv, Qinv, inject_Z; simpl. unfold N. lia. }
  destruct (Qeq_bool _ 0) eqn:Ez.
  { apply Qeq_bool_eq in Ez. rewrite Hper in Ez.
    unfold Qeq in Ez; simpl in Ez. lia. }
  rewrite (Qfloor_div_half _ N _ HN Hper).
  eexists. split; [reflexivity|]. split; [reflexivity|].
  set (X := (avail - ov * 8)%Z). assert (HX : (0 <= X)%Z) by (unfold X; lia).
  set (k := ((2 * X) / N)%Z).
  assert (Hk0 : (0 <= k)%Z) by (apply Z.div_pos; lia).
  split; [exact Hk0|].
  pose proof (Z.mul_div_le (2 * X) N HN) as Hle. fold k in Hle.
  assert (Hhalf : (2 * ((P * C + P / 2 * (2 * C - ov)) * s) <= N)%Z).
  { unfold N.
    assert (2 * (P / 2) <= P)%Z by (pose proof (Z.mul_div_le P 2); lia).
    assert (2 * (P / 2) * (2 * C - ov) <= P * (2 * C - ov))%Z
      by (apply Z.mul_le_mono_nonneg_r; lia).
    replace (2 * ((P * C + P / 2 * (2 * C - ov)) * s))%Z
      with ((2 * (P * C) + 2 * (P / 2) * (2 * C - ov)) * s)%Z by lia.
    replace (P * (4 * C - ov) * s)%Z
      with ((2 * (P * C) + P * (2 * C - ov)) * s)%Z by lia.
    apply Z.mul_le_mono_nonneg_r; lia. }
  assert (k * (2 * ((P * C + P / 2 * (2 * C - ov)) * s)) <= k * N)%Z
    by (apply Z.mul_le_mono_nonneg_l; lia).
  lia.
Qed.

(** ** Further properties of the stitching function *)

Lemma np_round_near_zero q :
  (- (1 # 2) <= q)%Q -> (q <= 1 # 2)%Q -> np_round q = 0%Z.
Proof.
  intros Hlo Hhi. unfold np_round.
  assert (Hf1 : (-1 <= Qfloor q)%Z).
  { change (-1)%Z with (Qfloor (- (1 # 2))). by apply Qfloor_resp_le. }
  assert (Hf2 : (Qfloor q <= 0)%Z).
  { change 0%Z with (Qfloor (1 # 2)). by apply Qfloor_resp_le. }
  assert (Hf : Qfloor q = (-1)%Z \/ Qfloor q = 0%Z) by lia.
  pose proof (Qfloor_le q) as Hle. pose proof (Qlt_floor q) as Hlt.
  destruct Hf as [E|E]; rewrite E in *.
  - destruct (Qcompare_spec (q - inject_Z (-1)) (1 # 2)) as [Hc|Hc|Hc];
      try reflexivity.
    exfalso. apply (Qlt_not_le _ _ Hc).
    unfold Qle, Qminus, Qplus, Qopp, inject_Z in *; simpl in *. lia.
  - destruct (Qcompare_spec (q - inject_Z 0) (1 # 2)) as [Hc|Hc|Hc];
      try reflexivity.
    exfalso. apply (Qlt_not_le _ _ Hc).
    unfold Qle, Qminus, Qplus, Qopp, inject_Z in *; simpl in *. lia.
Qed.

(** X5: the overlap is used only through its rounded value; in
    particular any overlap from -1/2 to 1/2, negative ones included, is
    accepted and treated as overlap 0. *)
Theorem sino_overlap_rounded :
  forall (B : Backend) (h : gmap nat ndarray) (data : loc) (q : Q)
         (rot : string),
    sino_360_to_180 data q rot h
      = sino_360_to_180 data (inject_Z (np_round q)) rot h /\
    ((- (1 # 2) <= q)%Q -> (q <= 1 # 2)%Q ->
     sino_360_to_180 data q rot h = sino_360_to_180 data 0 rot h).
Proof.
  intros B h data q rot.
  assert (E : forall q1 q2, np_round q1 = np_round q2 ->
                sino_360_to_180 data q1 rot h = sino_360_to_180 data q2 rot h).
  { intros q1 q2 Hq. unfold sino_360_to_180. by rewrite Hq. }
  split.
  - apply E. by rewrite np_round_integer.
  - intros Hlo Hhi. apply E. by rewrite np_round_near_zero.
Qed.

Lemma sino_overlap_rounded_witness :
  stitch 0 (- (2 # 5)) "left" (store_of (arange3 float32 4 1 6))
    = stitch 0 0 "left" (store_of (arange3 float32 4 1 6)).
Proof.
  apply (proj2 (sino_overlap_rounded exact_backend
                  (store_of (arange3 float32 4 1 6)) 0 (- (2 # 5))%Q "left"));
    unfold Qle; simpl; lia.
Defined.

(** X1: for rotation "right" and an integer overlap with
    0 < overlap < C the call returns, the leading columns of the output
    are the first half without its last [overlap] columns, the trailing
    columns are the second half without its last [overlap] columns,
    reversed, and the band between them blends the last [overlap] columns
    of both halves with the ramp from 1 down to 0. *)
Theorem sino_right_index_algebra :
  forall (B : Backend) (h : gmap nat ndarray) (data : loc) (a : ndarray)
         (P R C ov : nat),
    h !! data = Some a -> shape a = [P; R; C] -> 0 < ov -> ov < C ->
    exists out,
      sino_360_to_180 data (inject_Z (Z.of_nat ov)) "right" h
        = (<[fresh (dom h) := out]> h, Ok (fresh (dom h))) /\
      let n := Z.of_nat (P / 2) in
      let c := Z.of_nat C in
      let o := Z.of_nat ov in
      let w := linspace 1 0 ov in
      slice3 (as3 out) all all (upto (c - o))
        ≡ slice3 (as3 a) (upto n) all (upto (- o)) /\
      slice3 (as3 out) all all (from (- (c - o)))
        ≡ flip2 (slice3 (as3 a) (between n (2 * n)) all (upto (- o))) /\
      exists w1 w2 s,
        wmul w (slice3 (as3 a) (upto n) all (from (- o))) = Ok w1 /\
        wmul w (slice3 (as3 a) (between n (2 * n)) all (from (- o))) = Ok w2 /\
        add3 w1 (flip2 w2) = Ok s /\
        slice3 (as3 out) all all (between (c - o) c)
          ≡ map3 (cast (dtype_of a)) s.
Proof.
  intros B h data a P R C ov Hd Hs Hpos Hov.
  by apply (right_index_algebra h data a P R C ov).
Qed.

Lemma sino_right_index_algebra_witness :
  is_ok (snd (stitch 0 (inject_Z (Z.of_nat 2)) "right"
                (store_of (arange3 float32 4 1 6)))) = true.
Proof.
  destruct (sino_right_index_algebra exact_backend
              (store_of (arange3 float32 4 1 6)) 0 (arange3 float32 4 1 6)
              4 1 6 2 eq_refl eq_refl ltac:(lia) ltac:(lia)) as (out & Hrun & _).
  unfold stitch. rewrite Hrun. reflexivity.
Defined.

(** X2: for rotation "left", overlap 0 and at least one column the call
    returns the second half with its columns reversed followed by the
    first half. *)
Theorem sino_left_concatenation :
  forall (B : Backend) (h : gmap nat ndarray) (data : loc) (a : ndarray)
         (P R C : nat),
    h !! data = Some a -> shape a = [P; R; C] -> 0 < C ->
    exists out,
      sino_360_to_180 data 0 "left" h
        = (<[fresh (dom h) := out]> h, Ok (fresh (dom h))) /\
      let n := Z.of_nat (P / 2) in
      let c := Z.of_nat C in
      slice3 (as3 out) all all (upto c)
        ≡ flip2 (slice3 (as3 a) (between n (2 * n)) all all) /\
      slice3 (as3 out) all all (from c) ≡ slice3 (as3 a) (upto n) all all.
Proof.
  intros B h data a P R C Hd Hs HC.
  by apply (left_concatenation h data a P R C).
Qed.

Lemma sino_left_concatenation_witness :
  is_ok (snd (stitch 0 0 "left" (store_of (arange3 float32 4 1 6)))) = true.
Proof.
  destruct (sino_left_concatenation exact_backend
              (store_of (arange3 float32 4 1 6)) 0 (arange3 float32 4 1 6)
              4 1 6 eq_refl eq_refl ltac:(lia)) as (out & Hrun & _).
  unfold stitch. rewrite Hrun. reflexivity.
Defined.

(** X3: the call returns exactly when the input is 3-D, the rounded
    overlap lies in [0, C) and the rotation is "left", or "right" with a
    rounded overlap other than 0; what it returns has shape
    (P // 2, R, 2C - overlap) and the element type of the input. *)
Theorem sino_returns_iff :
  forall (B : Backend) (h : gmap nat ndarray) (data : loc) (a : ndarray)
         (q : Q) (rot : string),
    h !! data = Some a ->
    (is_ok (snd (sino_360_to_180 data q rot h)) = true <->
     exists P R C,
       shape a = [P; R; C] /\ (0 <= np_round q < Z.of_nat C)%Z /\
       (rot = "left"%string \/
        (rot = "right"%string /\ np_round q <> 0%Z))) /\
    (forall o out,
       snd (sino_360_to_180 data q rot h) = Ok o ->
       fst (sino_360_to_180 data q rot h) !! o = Some out ->
       exists P R C,
         shape a = [P; R; C] /\
         shape out = [P / 2; R; 2 * C - Z.to_nat (np_round q)] /\
         dtype_of out = dtype_of a).
Proof.
  intros B h data a q rot Hd.
  pose proof (sino_outcome_complete h data q rot) as Hout.
  split.
  - split.
    + intros Hok.
      destruct Hout as
        [ Hn | a' Ha' H3 | a' P R C Ha' Hs Hge | a' P R C Ha' Hs Hneg
        | a' P R C ov out Ha' Hs Hq Hov Hrot ? ? ?
        | a' P R C ov out Ha' Hs Hq Hpos Hov Hrot ? ? ?
        | a' P R C Ha' Hs Hq HC Hrot
        | a' P R C ov Ha' Hs Hq Hov Hl Hr ];
        simpl in Hok; try discriminate Hok;
        assert (a' = a) by congruence; subst a';
        exists P, R, C; (split; [done|]); (split; [lia|]).
      * by left.
      * right. split; [done | lia].
    + intros (P & R & C & Hs & Hq & Hrot).
      assert (Hov : np_round q = Z.of_nat (Z.to_nat (np_round q))) by lia.
      destruct Hrot as [->|[-> Hnz]].
      * destruct (sino_left_run h data a P R C q _ Hd Hs Hov) as (o & -> & _);
          [lia | done].
      * destruct (sino_right_run h data a P R C q _ Hd Hs Hov) as (o & -> & _);
          [lia | lia | done].
  - intros o out Ho Hl.
    destruct Hout as
      [ Hn | a' Ha' H3 | a' P R C Ha' Hs Hge | a' P R C Ha' Hs Hneg
      | a' P R C ov out' Ha' Hs Hq Hov Hrot Hsh Hdt ?
      | a' P R C ov out' Ha' Hs Hq Hpos Hov Hrot Hsh Hdt ?
      | a' P R C Ha' Hs Hq HC Hrot
      | a' P R C ov Ha' Hs Hq Hov Hl' Hr ];
      simpl in Ho, Hl; try discriminate Ho;
      injection Ho as <-; rewrite lookup_insert_eq in Hl;
      injection Hl as <-;
      assert (a' = a) by congruence; subst a';
      exists P, R, C; rewrite Hq, Nat2Z.id; done.
Qed.

Lemma sino_returns_iff_witness :
  is_ok (snd (stitch 0 (7 # 2) "right" (store_of (arange3 float32 4 1 6))))
    = true.
Proof.
  apply (proj1 (sino_returns_iff exact_backend
                  (store_of (arange3 float32 4 1 6)) 0 (arange3 float32 4 1 6)
                  (7 # 2)%Q "right" eq_refl)).
  exists 4, 1, 6. split; [reflexivity|]. split; [vm_compute; split; congruence|].
  right. split; [reflexivity | vm_compute; congruence].
Defined.

(** X4: a returned array is a new object: its reference was unused
    before the call, so it is not the input, and every other reference
    holds what it held before. *)
Theorem sino_result_is_new_object :
  forall (B : Backend) (h : gmap nat ndarray) (data : loc) (q : Q)
         (rot : string) (o : loc),
    snd (sino_360_to_180 data q rot h) = Ok o ->
    h !! o = None /\ o <> data /\
    is_Some (fst (sino_360_to_180 data q rot h) !! o) /\
    forall l, l <> o -> fst (sino_360_to_180 data q rot h) !! l = h !! l.
Proof.
  intros B h data q rot o Ho.
  destruct (sino_outcome_complete h data q rot) as
    [ Hn | a' Ha' H3 | a' P R C Ha' Hs Hge | a' P R C Ha' Hs Hneg
    | a' P R C ov out' Ha' Hs Hq Hov Hrot Hsh Hdt ?
    | a' P R C ov out' Ha' Hs Hq Hpos Hov Hrot Hsh Hdt ?
    | a' P R C Ha' Hs Hq HC Hrot
    | a' P R C ov Ha' Hs Hq Hov Hl' Hr ];
    simpl in *; try discriminate Ho; injection Ho as <-.
  all: split; [apply fresh_loc_unused|].
  all: split; [intros E; rewrite <- E in Ha';
               by rewrite fresh_loc_unused in Ha'|].
  all: split; [rewrite lookup_insert_eq; eauto|].
  all: intros l Hl; by apply lookup_insert_ne.
Qed.

Lemma sino_result_is_new_object_witness :
  store_of (arange3 float32 4 1 6) !! 1 = None /\ 1 <> 0.
Proof.
  destruct (sino_result_is_new_object exact_backend
              (store_of (arange3 float32 4 1 6)) 0 2 "left" 1)
    as (H1 & H2 & _).
  - vm_compute. reflexivity.
  - exact (conj H1 H2).
Defined.

(** X6: for an integer overlap with 0 < overlap < C, outside the seam
    band the output for rotation "right" is the column-reversed output for
    rotation "left" on the column-reversed input; these elements are
    copies of input elements. *)
Theorem sino_right_mirrors_left_outside_seam :
  forall (B : Backend) (h1 h2 : gmap nat ndarray) (d1 d2 : loc) (a : ndarray)
         (P R C ov : nat),
    h1 !! d1 = Some a -> h2 !! d2 = Some (mirror a) ->
    shape a = [P; R; C] -> 0 < ov -> ov < C ->
    exists outR outL,
      sino_360_to_180 d1 (inject_Z (Z.of_nat ov)) "right" h1
        = (<[fresh (dom h1) := outR]> h1, Ok (fresh (dom h1))) /\
      sino_360_to_180 d2 (inject_Z (Z.of_nat ov)) "left" h2
        = (<[fresh (dom h2) := outL]> h2, Ok (fresh (dom h2))) /\
      shape outR = shape outL /\
      forall i j k, i < P / 2 -> j < R -> k < 2 * C - ov ->
        k < C - ov \/ C <= k ->
        item outR [i; j; k] = item outL [i; j; 2 * C - ov - 1 - k].
Proof.
  intros B h1 h2 d1 d2 a P R C ov H1 H2 Hs Hov0 Hov.
  assert (Hq : np_round (inject_Z (Z.of_nat ov)) = Z.of_nat ov)
    by apply np_round_integer.
  destruct (sino_right_run h1 d1 a P R C _ ov H1 Hs Hq)
    as (outR & HrunR & HshR & HdtR & HcR); [lia | lia |].
  destruct (sino_left_run h2 d2 (mirror a) P R C _ ov H2 Hs Hq)
    as (outL & HrunL & HshL & HdtL & HcL); [lia|].
  exists outR, outL. split; [exact HrunR|]. split; [exact HrunL|].
  split; [congruence|].
  intros i j k Hi Hj Hk Hout.
  rewrite HcR, HcL by lia. unfold right_cell, left_cell.
  cbn [mirror item dtype_of]. rewrite Hs. cbn [nth].
  destruct Hout as [K1|K2].
  - destruct (Nat.ltb_spec k (C - ov)); [|lia].
    destruct (Nat.ltb_spec (2 * C - ov - 1 - k) (C - ov)); [lia|].
    destruct (Nat.ltb_spec (2 * C - ov - 1 - k) C); [lia|].
    repeat (f_equal; try lia).
  - destruct (Nat.ltb_spec k (C - ov)); [lia|].
    destruct (Nat.ltb_spec k C); [lia|].
    destruct (Nat.ltb_spec (2 * C - ov - 1 - k) (C - ov)); [|lia].
    repeat (f_equal; try lia).
Qed.

Lemma sino_right_mirrors_left_outside_seam_witness :
  exists outR outL : @ndarray exact_backend,
    stitch 0 (inject_Z (Z.of_nat 3)) "right" (store_of (arange3 float32 4 1 6))
      = (<[1 := outR]> (store_of (arange3 float32 4 1 6)), Ok 1) /\
    @shape exact_backend outR = @shape exact_backend outL.
Proof.
  destruct (sino_right_mirrors_left_outside_seam exact_backend
              (store_of (arange3 float32 4 1 6))
              (store_of (@mirror exact_backend (arange3 float32 4 1 6)))
              0 0 (arange3 float32 4 1 6) 4 1 6 3)
    as (outR & outL & HR & HL & Hsh & _);
    try reflexivity; try lia.
  exists outR, outL. split; [exact HR | exact Hsh].
Defined.

(** ** Further properties of the reconstruction entry points and the estimators *)

(** X13: on data with fewer than three axes FBP, SIRT and CGLS raise
    IndexError before the toolkit is called, and leave the store as it
    was. *)
Theorem recon_needs_three_axes :
  forall (B : Backend) (T : Toolkit) (h : gmap nat ndarray) (data : loc)
         (a : ndarray) (angles : list Q) (center : option Q)
         (objsize : option Z) (iters : option Z) (nonneg : option bool)
         (gpu_id : Z),
    h !! data = Some a -> ndim a < 3 ->
    FBP data angles center objsize gpu_id h
      = (h, Raise (IndexError "tuple index out of range")) /\
    SIRT data angles center objsize iters nonneg gpu_id h
      = (h, Raise (IndexError "tuple index out of range")) /\
    CGLS data angles center objsize iters nonneg gpu_id h
      = (h, Raise (IndexError "tuple index out of range")).
Proof.
  intros B T h data a angles center objsize iters nonneg gpu_id Hd Hn.
  assert (H2 : shape_at a 2 = Raise (IndexError "tuple index out of range")).
  { unfold shape_at. rewrite lookup_ge_None_2; [reflexivity|].
    unfold ndim in Hn. lia. }
  assert (Hg : rec_tools a angles center objsize gpu_id h
               = (h, Raise (IndexError "tuple index out of range"))).
  { unfold rec_tools, bind, lift, ret. rewrite H2.
    destruct center, objsize; reflexivity. }
  unfold FBP, SIRT, CGLS.
  repeat split;
    (erewrite bind_ok; [| unfold deref; rewrite Hd; reflexivity]);
    (erewrite bind_raise; [reflexivity | exact Hg]).
Qed.

Lemma recon_needs_three_axes_witness :
  let a := @NdArray exact_backend [4; 6] float32 (fun _ => Q2Qc 0) in
  @FBP exact_backend recording_toolkit 0 [] None None 0 {[ 0 := a ]}
    = ({[ 0 := a ]}, Raise (IndexError "tuple index out of range")).
Proof.
  intros a.
  refine (proj1 (recon_needs_three_axes exact_backend recording_toolkit
                   {[ 0 := a ]} 0 a [] None None None None 0 _ _)).
  - apply lookup_singleton_eq.
  - unfold ndim; simpl. lia.
Defined.

Lemma rec_tools_run `{Backend} (h : heap) (a : ndarray) s0 s1 s2 rest
    angles center objsize gpu_id :
  shape a = s0 :: s1 :: s2 :: rest ->
  rec_tools a angles center objsize gpu_id h =
    (h, Ok {| DetectorsDimH := Z.of_nat s2;
              DetectorsDimV := Z.of_nat s1;
              CenterRotOffset :=
                (inject_Z (Z.of_nat s2) / 2
                 - match center with
                   | None => inject_Z (Z.of_nat s2 / 2)
                   | Some c => c
                   end - (1 # 2))%Q;
              AnglesVec := map Qopp angles;
              ObjSize := match objsize with
                         | None => Z.of_nat s2
                         | Some s => s
                         end;
              device_projector := gpu_id |}).
Proof.
  intros Hs. unfold rec_tools, shape_at, bind, lift, ret. rewrite Hs. simpl.
  destruct center, objsize; reflexivity.
Qed.

(** X14: with no centre given, the centre offset passed to the toolkit
    is -1/2 for an even detector width and 0 for an odd one. *)
Theorem recon_default_center_offset :
  forall (B : Backend) (T : Toolkit) (h : gmap nat ndarray) (data : loc)
         (a : ndarray) (s0 s1 s2 : nat) (rest : list nat)
         (angles : list Q) (objsize : option Z) (gpu_id : Z),
    h !! data = Some a -> shape a = s0 :: s1 :: s2 :: rest ->
    exists g,
      FBP data angles None objsize gpu_id h
        = (h, Ok (RecToolsDIRCuPy_FBP3D g a)) /\
      (CenterRotOffset g == if Nat.even s2 then - (1 # 2) else 0)%Q.
Proof.
  intros B T h data a s0 s1 s2 rest angles objsize gpu_id Hd Hs.
  eexists. split.
  - unfold FBP.
    erewrite bind_ok; [| unfold deref; rewrite Hd; reflexivity].
    erewrite bind_ok; [reflexivity|].
    by apply (rec_tools_run h a s0 s1 s2 rest).
  - cbn [CenterRotOffset].
    destruct (Nat.even s2) eqn:He.
    + apply Nat.even_spec in He as [m ->].
      replace (Z.of_nat (2 * m)) with (Z.of_nat m * 2)%Z by lia.
      rewrite Z.div_mul by lia.
      unfold Qeq, Qminus, Qplus, Qopp, Qdiv, Qmult, Qinv, inject_Z; simpl. lia.
    + assert (Ho : Nat.odd s2 = true) by (by rewrite <- Nat.negb_even, He).
      apply Nat.odd_spec in Ho as [m ->].
      replace (Z.of_nat (2 * m + 1)) with (1 + Z.of_nat m * 2)%Z by lia.
      rewrite Z.div_add by lia. change (1 / 2)%Z with 0%Z.
      unfold Qeq, Qminus, Qplus, Qopp, Qdiv, Qmult, Qinv, inject_Z; simpl. lia.
Qed.

Lemma recon_default_center_offset_witness :
  exists g,
    @FBP exact_backend recording_toolkit 0 [] None None 0
      (store_of (arange3 float32 4 2 6))
      = (store_of (arange3 float32 4 2 6), Ok (CallFBP3D g)) /\
    (CenterRotOffset g == - (1 # 2))%Q.
Proof.
  exact (recon_default_center_offset exact_backend recording_toolkit
           (store_of (arange3 float32 4 2 6)) 0 (arange3 float32 4 2 6)
           4 2 6 [] [] None 0 eq_refl eq_refl).
Defined.

(** X8: without the key "overlap" the sinogram estimator fails its
    assertion; without the key "objsize" the FBP, SIRT and CGLS estimators
    raise KeyError, whatever the other arguments. *)
Theorem estimators_missing_key :
  forall (dims : Z * Z) (dt : np_dtype_obj) (avail : Z),
    (forall kwargs : gmap string Q,
       kwargs !! "overlap"%string = None ->
       _calc_max_slices_sino_360_to_180 dims dt avail kwargs
         = Fail (AssertionError "Overlap not given")) /\
    (forall kwargs : gmap string (option Z),
       kwargs !! "objsize"%string = None ->
       _calc_max_slices_FBP dims dt avail kwargs = Fail (KeyError "objsize") /\
       _calc_max_slices_SIRT dims dt avail kwargs = Fail (KeyError "objsize") /\
       _calc_max_slices_CGLS dims dt avail kwargs = Fail (KeyError "objsize")).
Proof.
  intros dims dt avail. split.
  - intros kwargs Hk. unfold _calc_max_slices_sino_360_to_180. by rewrite Hk.
  - intros kwargs Hk.
    unfold _calc_max_slices_FBP, _calc_max_slices_SIRT, _calc_max_slices_CGLS.
    by rewrite Hk.
Qed.

Lemma estimators_missing_key_witness :
  _calc_max_slices_FBP (1801, 2560)%Z np_float32 (10 ^ 9)%Z
    {[ "center"%string := Some 1280%Z ]} = Fail (KeyError "objsize").
Proof.
  apply (proj2 (estimators_missing_key (1801, 2560)%Z np_float32 (10 ^ 9)%Z)).
  reflexivity.
Defined.

Lemma FBP_estimate_fits_witness :
  exists k,
    _calc_max_slices_FBP (1801, 2560)%Z np_float32 (10 ^ 9)%Z
      {[ "objsize"%string := None ]} = Done (k, np_float32, (2560, 2560)%Z).
Proof.
  destruct (FBP_estimate_fits 1801 2560 (10 ^ 9) np_float32
              {[ "objsize"%string := None ]} None) as (k & Hk & _);
    try (unfold small; simpl; lia); try reflexivity.
  exists k. exact Hk.
Defined.

Lemma FBP_estimate_zero_division_witness :
  _calc_max_slices_FBP (0, 2560)%Z np_float32 (10 ^ 9)%Z
    {[ "objsize"%string := Some 0%Z ]} = Fail ZeroDivisionError.
Proof.
  apply (FBP_estimate_zero_division 0 2560 (10 ^ 9) np_float32
           {[ "objsize"%string := Some 0%Z ]} (Some 0%Z));
    try (unfold small; simpl; lia); try reflexivity;
    try (split; reflexivity).
Defined.


Lemma sino_estimate_fits_witness :
  exists k,
    _calc_max_slices_sino_360_to_180 (1801, 2560)%Z np_uint16 (10 ^ 9)%Z
      {[ "overlap"%string := (7 # 2)%Q ]} = Done (k, np_uint16).
Proof.
  destruct (sino_estimate_fits 1801 2560 4 (10 ^ 9) np_uint16
              {[ "overlap"%string := (7 # 2)%Q ]} (7 # 2)%Q)
    as (k & Hk & _);
    try (unfold small; simpl; lia); try reflexivity.
  - unfold float64_nbytes. lia.
  - exists k. exact Hk.
Defined.
